(** * takeSinglePhoto.py: single-frame thermal capture pipeline

    A shallow embedding of [src/takeSinglePhoto.py].  Temperatures are IEEE
    binary64 values (numpy's float64), modelled by the kernel's primitive
    floats, so that NaN and division by zero behave as they do in numpy. *)

From Stdlib Require Import ZArith List String Ascii Bool Lia.
From Stdlib Require Import Uint63 PrimFloat SpecFloat FloatOps.
From Stdlib Require Import DecimalString DecimalZ DecimalPos.
From stdpp Require Import gmap strings.

Local Open Scope string_scope.
Local Open Scope Z_scope.

(** ** Numbers and their text *)

(** A temperature frame: rows of float64 samples, [height] rows of [width]. *)
Definition Matrix := list (list float).

(** The IEEE tests on samples, read off the decoded value: [x != x] holds of
    NaN alone, and [a < b] is the comparison of the two decoded values, false
    as soon as one of them is NaN and between the two zeros. *)
Definition is_nan (x : float) : bool :=
  match Prim2SF x with S754_nan => true | _ => false end.

Definition float_lt (a b : float) : bool := SFltb (Prim2SF a) (Prim2SF b).

(** [str(n)] for a Python int. *)
Definition str_int (n : Z) : string := NilZero.string_of_int (Z.to_int n).

Definition two_digits (n : Z) : string :=
  str_int (n / 10) +:+ str_int (n mod 10).

(** Nearest integer to [num / den], ties to even ([den > 0], [num >= 0]). *)
Definition round_half_even (num den : Z) : Z :=
  let q := num / den in
  let r := num mod den in
  if 2 * r <? den then q
  else if den <? 2 * r then q + 1
  else if Z.even q then q else q + 1.

(** Hundredths of the exact value [m * 2^e], correctly rounded. *)
Definition hundredths (m : positive) (e : Z) : Z :=
  if 0 <=? e then Z.pos m * 2 ^ e * 100
  else round_half_even (Z.pos m * 100) (2 ^ (- e)).

(** Python's [format(x, ".2f")]: the exact binary value rounded half-even to
    two decimals; the sign is kept even when the digits are all zero. *)
Definition format_2f (x : float) : string :=
  match Prim2SF x with
  | S754_nan => "nan"
  | S754_infinity s => if s then "-inf" else "inf"
  | S754_zero s => if s then "-0.00" else "0.00"
  | S754_finite s m e =>
      let h := hundredths m e in
      (if s then "-" else "") +:+ str_int (h / 100) +:+ "." +:+ two_digits (h mod 100)
  end.


(** ** numpy reductions *)

(** The Python exceptions that the pipeline's own operations can raise: the
    reductions of numpy on the frame, with the message they carry.  The
    driver's methods and the file writes are taken to return normally, as
    their interfaces describe. *)
Inductive Exn := ValueError (message : string).

(** What a reduction without identity raises on an array of size zero. *)
Definition zero_size (operation : string) : Exn :=
  ValueError ("zero-size array to reduction operation " +:+ operation +:+
              " which has no identity").

(** One step of numpy's reductions, [a] the value so far and [b] the next
    sample: a NaN wins, and of two samples that compare equal (the two
    zeros) the later one is kept. *)
Definition minimum (a b : float) : float :=
  if is_nan a then a else if is_nan b then b else if float_lt a b then a else b.

Definition maximum (a b : float) : float :=
  if is_nan a then a else if is_nan b then b else if float_lt b a then a else b.

(** [np.min(a)], [np.max(a)]: reduction over every element, in order; a
    zero-size array raises [ValueError] (the reduction has no identity). *)
Definition np_min (a : Matrix) : Exn + float :=
  match concat a with
  | [] => inl (zero_size "minimum")
  | x :: xs => inr (fold_left minimum xs x)
  end.

Definition np_max (a : Matrix) : Exn + float :=
  match concat a with
  | [] => inl (zero_size "maximum")
  | x :: xs => inr (fold_left maximum xs x)
  end.

(** ** Normalisation to 8 bits *)

(** Integer part of [m * 2^e], towards zero. *)
Definition trunc_mantissa (m : positive) (e : Z) : Z :=
  if 0 <=? e then Z.pos m * 2 ^ e else Z.pos m / 2 ^ (- e).

(** [.astype(np.uint8)] on one float64 sample.  numpy uses the C conversion,
    which truncates towards zero and is defined only when the truncated value
    fits the target; for NaN, infinities and values outside [0, 255] the
    stored byte is whatever the platform produces, written [None] here. *)
Definition astype_uint8 (x : float) : option Z :=
  match Prim2SF x with
  | S754_zero _ => Some 0
  | S754_finite s m e =>
      let t := trunc_mantissa m e in
      if s then (if t =? 0 then Some 0 else None)
      else if t <? 256 then Some t else None
  | S754_infinity _ | S754_nan => None
  end.

(** [(temp_frame - temp_min) / (temp_max - temp_min)], element by element. *)
Definition ratio_frame (temp_frame : Matrix) (temp_min temp_max : float) : Matrix :=
  map (map (fun x => ((x - temp_min) / (temp_max - temp_min))%float)) temp_frame.

(** Line 117:
    [((temp_frame - temp_min) / (temp_max - temp_min) * 255).astype(np.uint8)]. *)
Definition normalize (temp_frame : Matrix) (temp_min temp_max : float)
  : list (list (option Z)) :=
  map (map (fun q => astype_uint8 (q * 255)%float))
      (ratio_frame temp_frame temp_min temp_max).

(** ** Command line *)

(** The namespace returned by [parse_arguments]. *)
Record Args := mkArgs {
  rawcam : bool;
  device : option string;
  offset : option float;
  stabilization : Z;
  output_folder : string;
  high_range : bool;
  file : option string
}.

(** Truthiness of a [str] and of a [float]. *)
Definition truthy_str (s : string) : bool := negb (String.eqb s "").
Definition truthy_float (x : float) : bool := negb (PrimFloat.eqb x 0%float).

(** [s.endswith(suffix)]. *)
Definition endswith (s suffix : string) : bool :=
  let n := String.length s in
  let k := String.length suffix in
  (k <=? n)%nat && String.eqb (substring (n - k) k s) suffix.

(** The test of line 52: [args.file and args.file.endswith(".npy")]. *)
Definition uses_emulator (args : Args) : bool :=
  match file args with
  | Some f => truthy_str f && endswith f ".npy"
  | None => false
  end.

(** The keyword arguments collected for [irpythermal.Camera]; an absent key
    is [None].  The video device is identified by the path it was opened on. *)
Record CameraKwargs := mkKwargs {
  camera_raw : option bool;
  video_dev : option string;
  fixed_offset : option float
}.

(** ** The sensor driver and the imaging libraries *)

(** Calibration metadata: the dictionary's items in iteration order, each
    value already turned into text. *)
Definition Info := list (string * string).

(** The interface of the [irpythermal] module that [main] consumes.  A value
    of type [camera] is the state of a camera object; methods that advance
    the sensor return the next state. *)
Class CameraDriver := {
  camera : Type;
  RawFrame : Type;
  LookupTable : Type;
  CameraEmulator : string -> camera;
  Camera : CameraKwargs -> camera;
  width : camera -> Z;
  height : camera -> Z;
  temperature_range_high : camera -> camera;
  wait_for_range_application : camera -> camera;
  read : camera -> (bool * RawFrame) * camera;
  info : camera -> Info * LookupTable;
  convert_to_frame : camera -> RawFrame -> LookupTable -> Matrix
}.

(** [output_folder / name]: a path is the folder and the file name in it. *)
Definition Path : Type := string * string.

(** The library functions whose values no statement below depends on: the
    two floating-point averages of numpy, the colour table of OpenCV and
    pathlib's rendering [str(path)]. *)
Class Libs := {
  np_mean : Matrix -> float;
  np_std : Matrix -> float;
  COLORMAP_INFERNO : Z -> Z * Z * Z;
  path_str : Path -> string
}.

Definition Image := list (list (option (Z * Z * Z))).

(** [cv2.applyColorMap(img, cv2.COLORMAP_INFERNO)]. *)
Definition applyColorMap `{Libs} (img : list (list (option Z))) : Image :=
  map (map (option_map COLORMAP_INFERNO)) img.

(** ** Effects: files and the event trace *)

Inductive FileContent :=
| PngFile (img : Image)
| NpyFile (a : Matrix)
| TextFile (text : string).

Inductive Event :=
| Mkdir (folder : string)
| Print (line : string)
| VideoCapture (camera_path : string)
| NewEmulator (f : string)
| NewCamera (kw : CameraKwargs)
| RangeHigh
| WaitRange
| Read
| Sleep (seconds : float)
| GetInfo
| Convert
| WriteFile (p : Path)
| Release.

Inductive Outcome (A : Type) :=
| Done (a : A)
| Raised (e : Exn).
Arguments Done {A} a.
Arguments Raised {A} e.

Record Result (A : Type) := mkResult {
  outcome : Outcome A;
  files : gmap Path FileContent;
  trace : list Event
}.
Arguments mkResult {A} _ _ _.
Arguments outcome {A} _.
Arguments files {A} _.
Arguments trace {A} _.

(** A computation takes the file system and gives its outcome, the file
    system it leaves and the events it performed, in order. *)
Definition Run (A : Type) : Type := gmap Path FileContent -> Result A.

Definition ret {A} (a : A) : Run A := fun fs => mkResult (Done a) fs [].

Definition bind {A B} (m : Run A) (k : A -> Run B) : Run B :=
  fun fs =>
    let r := m fs in
    match outcome r with
    | Done a =>
        let r' := k a (files r) in
        mkResult (outcome r') (files r') (trace r ++ trace r')
    | Raised e => mkResult (Raised e) (files r) (trace r)
    end.

Definition emit (ev : Event) : Run unit := fun fs => mkResult (Done tt) fs [ev].

Definition print (line : string) : Run unit := emit (Print line).

(** An exception returned by a pure library call propagates. *)
Definition lift {A} (x : Exn + A) : Run A :=
  fun fs => match x with
            | inl e => mkResult (Raised e) fs []
            | inr a => mkResult (Done a) fs []
            end.

(** [cv2.imwrite], [np.save] and [open(p, 'w')] followed by the writes: the
    file at [p] is created, or replaced if it exists. *)
Definition write_file (p : Path) (c : FileContent) : Run unit :=
  fun fs => mkResult (Done tt) (<[p := c]> fs) [WriteFile p].

Declare Scope run_scope.
Delimit Scope run_scope with run.
Notation "x <- m ;; k" := (bind m (fun x => k))
  (at level 100, m at next level, right associativity) : run_scope.
Notation "m ;; k" := (bind m (fun _ => k))
  (at level 100, right associativity) : run_scope.
Local Open Scope run_scope.

(** ** Text pieces *)

Definition nl : string := String "010"%char EmptyString.

(** The two bytes of the degree sign in UTF-8, then [C]. *)
Definition degC : string := String "194"%char (String "176"%char "C").

(** [datetime.now()]: the wall-clock reading taken at line 113. *)
Record datetime := mkDatetime {
  year : Z; month : Z; day : Z; hour : Z; minute : Z; second : Z
}.

Definition pad2 (n : Z) : string :=
  if n <? 10 then "0" +:+ str_int n else str_int n.

(** [strftime("%Y-%m-%d_%H-%M-%S")], for years of four digits. *)
Definition strftime (t : datetime) : string :=
  str_int (year t) +:+ "-" +:+ pad2 (month t) +:+ "-" +:+ pad2 (day t) +:+ "_" +:+
  pad2 (hour t) +:+ "-" +:+ pad2 (minute t) +:+ "-" +:+ pad2 (second t).

(** [range(n)]: empty when [n] is not positive. *)
Definition range (n : Z) : list Z := map Z.of_nat (seq 0 (Z.to_nat n)).

(** The four artifact names of a run. *)
Definition image_name (timestamp : string) : string := "thermal_" +:+ timestamp +:+ ".png".
Definition numpy_name (timestamp : string) : string := "thermal_" +:+ timestamp +:+ ".npy".
Definition metadata_name (timestamp : string) : string := "thermal_" +:+ timestamp +:+ ".txt".
Definition simple_name (timestamp : string) : string := "thermal_" +:+ timestamp +:+ "_minmax.txt".

(** Lines 154-156: the text of the min/max file. *)
Definition simple_text (temp_min temp_max : float) : string :=
  (format_2f temp_min +:+ nl) +:+ (format_2f temp_max +:+ nl).

(** Lines 146-148: one line per calibration item. *)
Definition info_lines (inf : Info) : string :=
  fold_right (fun kv acc => ("  " +:+ fst kv +:+ ": " +:+ snd kv +:+ nl) +:+ acc) "" inf.

(** Lines 135-148: the text of the metadata file; [if info:] is true for a
    dictionary with at least one item. *)
Definition metadata_text (timestamp : string) (w h : Z)
    (temp_min temp_max temp_mean temp_std : float) (inf : Info) : string :=
  ("Thermal Camera Capture" +:+ nl) +:+
  ("Timestamp: " +:+ timestamp +:+ nl) +:+
  ("Camera resolution: " +:+ str_int w +:+ " x " +:+ str_int h +:+ nl) +:+
  (nl +:+ "Temperature statistics:" +:+ nl) +:+
  ("  Minimum: " +:+ format_2f temp_min +:+ degC +:+ nl) +:+
  ("  Maximum: " +:+ format_2f temp_max +:+ degC +:+ nl) +:+
  ("  Mean: " +:+ format_2f temp_mean +:+ degC +:+ nl) +:+
  ("  Standard deviation: " +:+ format_2f temp_std +:+ degC +:+ nl) +:+
  match inf with
  | [] => ""
  | _ :: _ => (nl +:+ "Camera info:" +:+ nl) +:+ info_lines inf
  end.

(** ** The pipeline *)

Section Pipeline.
Context {driver : CameraDriver} {libs : Libs}.

(** Lines 56-64: the keyword arguments of the live camera. *)
Definition camera_kwargs (args : Args) : Run CameraKwargs :=
  let kw := mkKwargs None None None in
  let kw := if rawcam args then mkKwargs (Some true) (video_dev kw) (fixed_offset kw) else kw in
  kw <- match device args with
        | Some camera_path =>
            if truthy_str camera_path then
              emit (VideoCapture camera_path);;
              ret (mkKwargs (camera_raw kw) (Some camera_path) (fixed_offset kw))
            else ret kw
        | None => ret kw
        end;;
  ret match offset args with
      | Some o =>
          if truthy_float o then mkKwargs (camera_raw kw) (video_dev kw) (Some o) else kw
      | None => kw
      end.

(** Lines 56-74: the [else] branch, a live camera and its range. *)
Definition open_live (args : Args) : Run camera :=
  kw <- camera_kwargs args;;
  emit (NewCamera kw);;
  let cam := Camera kw in
  if high_range args then
    print "Setting high temperature range...";;
    emit RangeHigh;;
    let cam := temperature_range_high cam in
    emit WaitRange;;
    ret (wait_for_range_application cam)
  else
    print "Using normal temperature range...";;
    ret cam.

(** Lines 52-74: initialise the camera. *)
Definition open_camera (args : Args) : Run camera :=
  match file args with
  | Some f =>
      if truthy_str f && endswith f ".npy" then
        emit (NewEmulator f);;
        print ("Using emulator with file: " +:+ f);;
        ret (CameraEmulator f)
      else open_live args
  | None => open_live args
  end.

(** The argument of [time.sleep] at line 84: the float64 nearest to 0.01. *)
#[warnings="-inexact-float"]
Definition pause : float := 0.01%float.

(** Lines 80-84: the body of the stabilisation loop, once per index. *)
Fixpoint stabilize (total : Z) (indices : list Z) (cam : camera) : Run camera :=
  match indices with
  | [] => ret cam
  | i :: rest =>
      emit Read;;
      let cam := snd (read cam) in
      (if (i + 1) mod 5 =? 0
       then print ("  Skipped " +:+ str_int (i + 1) +:+ "/" +:+ str_int total +:+ " frames")
       else ret tt);;
      emit (Sleep pause);;
      stabilize total rest cam
  end.

(** Lines 106-110: the statistics shown to the operator. *)
Definition print_statistics (temp_min temp_max temp_mean temp_std : float) : Run unit :=
  print (nl +:+ "Temperature statistics:");;
  print ("  Min: " +:+ format_2f temp_min +:+ degC);;
  print ("  Max: " +:+ format_2f temp_max +:+ degC);;
  print ("  Mean: " +:+ format_2f temp_mean +:+ degC);;
  print ("  Std: " +:+ format_2f temp_std +:+ degC).

(** Lines 94-161: everything after a successful final read. *)
Definition process (args : Args) (now : datetime) (cam : camera) (raw_frame : RawFrame)
  : Run unit :=
  let output_folder := output_folder args in
  emit GetInfo;;
  let inf := fst (info cam) in
  let lut := snd (info cam) in
  emit Convert;;
  let temp_frame := convert_to_frame cam raw_frame lut in
  temp_min <- lift (np_min temp_frame);;
  temp_max <- lift (np_max temp_frame);;
  let temp_mean := np_mean temp_frame in
  let temp_std := np_std temp_frame in
  print_statistics temp_min temp_max temp_mean temp_std;;
  let timestamp := strftime now in
  let temp_normalized := normalize temp_frame temp_min temp_max in
  let temp_colored := applyColorMap temp_normalized in
  let image_filename := (output_folder, image_name timestamp) in
  write_file image_filename (PngFile temp_colored);;
  print (nl +:+ "Image saved to: " +:+ path_str image_filename);;
  let numpy_filename := (output_folder, numpy_name timestamp) in
  write_file numpy_filename (NpyFile temp_frame);;
  print ("Raw temperature data saved to: " +:+ path_str numpy_filename);;
  let metadata_filename := (output_folder, metadata_name timestamp) in
  write_file metadata_filename
    (TextFile (metadata_text timestamp (width cam) (height cam)
                 temp_min temp_max temp_mean temp_std inf));;
  print ("Metadata saved to: " +:+ path_str metadata_filename);;
  let simple_filename := (output_folder, simple_name timestamp) in
  write_file simple_filename (TextFile (simple_text temp_min temp_max));;
  print ("Min/max file saved to: " +:+ path_str simple_filename);;
  emit Release;;
  print (nl +:+ "Done!").

(** Lines 76-161: from the opened camera to the end of [main]. *)
Definition capture (args : Args) (now : datetime) (cam : camera) : Run unit :=
  print ("Camera resolution: " +:+ str_int (width cam) +:+ " x " +:+ str_int (height cam));;
  print ("Stabilizing (skipping " +:+ str_int (stabilization args) +:+ " frames)...");;
  cam <- stabilize (stabilization args) (range (stabilization args)) cam;;
  print "Capturing final frame...";;
  emit Read;;
  let ok := fst (fst (read cam)) in
  let raw_frame := snd (fst (read cam)) in
  let cam := snd (read cam) in
  if negb ok then
    print "Error: could not read frame from camera";;
    emit Release;;
    ret tt
  else process args now cam raw_frame.

Definition main (args : Args) (now : datetime) : Run unit :=
  emit (Mkdir (output_folder args));;
  print "Initializing camera...";;
  cam <- open_camera args;;
  capture args now cam.

End Pipeline.

(** ** Observations on runs *)

Definition is_read (ev : Event) : bool := match ev with Read => true | _ => false end.
Definition is_sleep (ev : Event) : bool := match ev with Sleep _ => true | _ => false end.
Definition is_release (ev : Event) : bool := match ev with Release => true | _ => false end.
Definition is_write (ev : Event) : bool := match ev with WriteFile _ => true | _ => false end.
Definition is_range (ev : Event) : bool :=
  match ev with RangeHigh | WaitRange => true | _ => false end.
Definition is_new_camera (ev : Event) : bool :=
  match ev with NewCamera _ => true | _ => false end.

(** How many events of a trace satisfy [p]. *)
Definition count_events (p : Event -> bool) (t : list Event) : nat :=
  length (List.filter p t).

(** [t] put in front of what a run performed. *)
Definition after {A} (t : list Event) (r : Result A) : Result A :=
  mkResult (outcome r) (files r) (t ++ trace r).

(** The camera after [n] reads whose results are dropped. *)
Fixpoint drain `{CameraDriver} (n : nat) (cam : camera) : camera :=
  match n with
  | O => cam
  | S k => drain k (snd (read cam))
  end.

(** The progress line printed after every fifth discarded frame. *)
Definition milestone (total i : Z) : list Event :=
  if (i + 1) mod 5 =? 0
  then [Print ("  Skipped " +:+ str_int (i + 1) +:+ "/" +:+ str_int total +:+ " frames")]
  else [].

(** One read, its progress line if any, one pause: per index, in order. *)
Definition discard_events (total : Z) (indices : list Z) : list Event :=
  flat_map (fun i => Read :: milestone total i ++ [Sleep pause]) indices.

(** The frame that [process] works on (lines 95-98). *)
Definition frame_of `{CameraDriver} (cam : camera) (raw_frame : RawFrame) : Matrix :=
  convert_to_frame cam raw_frame (snd (info cam)).

(** The dictionary that lines 56-64 leave in [camera_kwargs], key by key. *)
Definition collected_kwargs (args : Args) : CameraKwargs :=
  mkKwargs
    (if rawcam args then Some true else None)
    (match device args with
     | Some p => if truthy_str p then Some p else None
     | None => None
     end)
    (match offset args with
     | Some o => if truthy_float o then Some o else None
     | None => None
     end).

Definition device_events (args : Args) : list Event :=
  match device args with
  | Some p => if truthy_str p then [VideoCapture p] else []
  | None => []
  end.

(** The live camera object once lines 66-74 are done with it. *)
Definition live_camera `{CameraDriver} (args : Args) : camera :=
  if high_range args
  then wait_for_range_application (temperature_range_high (Camera (collected_kwargs args)))
  else Camera (collected_kwargs args).

Definition range_events (args : Args) : list Event :=
  if high_range args
  then [Print "Setting high temperature range..."; RangeHigh; WaitRange]
  else [Print "Using normal temperature range..."].

(** Whether a text contains a line feed. *)
Fixpoint has_newline (s : string) : bool :=
  match s with
  | EmptyString => false
  | String c rest => Ascii.eqb c "010" || has_newline rest
  end.

(** The namespace with one option replaced. *)
Definition with_offset (o : option float) (args : Args) : Args :=
  mkArgs (rawcam args) (device args) o (stabilization args) (output_folder args)
         (high_range args) (file args).

Definition with_high_range (b : bool) (args : Args) : Args :=
  mkArgs (rawcam args) (device args) (offset args) (stabilization args)
         (output_folder args) b (file args).

(** Further classes of events. *)
Definition is_print (ev : Event) : bool := match ev with Print _ => true | _ => false end.
Definition is_mkdir (ev : Event) : bool := match ev with Mkdir _ => true | _ => false end.
Definition is_video (ev : Event) : bool :=
  match ev with VideoCapture _ => true | _ => false end.
Definition is_open (ev : Event) : bool :=
  match ev with NewEmulator _ | NewCamera _ => true | _ => false end.

(** The calls on the camera object, its construction included. *)
Definition is_camera_call (ev : Event) : bool :=
  match ev with
  | NewEmulator _ | NewCamera _ | RangeHigh | WaitRange | Read | GetInfo | Convert
  | Release => true
  | _ => false
  end.

(** The events that set a run up: folder, video device, camera object. *)
Definition is_setup (ev : Event) : bool := is_mkdir ev || is_video ev || is_open ev.

(** The progress line shown after [k] discarded frames out of [total]. *)
Definition skipped_line (total k : Z) : Event :=
  Print ("  Skipped " +:+ str_int k +:+ "/" +:+ str_int total +:+ " frames").

(** The namespace with another positional argument. *)
Definition with_file (f : option string) (args : Args) : Args :=
  mkArgs (rawcam args) (device args) (offset args) (stabilization args)
         (output_folder args) (high_range args) f.

(** The four artifact names of the run stamped [timestamp]. *)
Definition artifact_names (timestamp : string) : list string :=
  [image_name timestamp; numpy_name timestamp; metadata_name timestamp;
   simple_name timestamp].

(** A clock reading whose year has four digits and whose other fields are
    in the ranges of [datetime]. *)
Definition valid_datetime (t : datetime) : Prop :=
  1000 <= year t <= 9999 /\ 1 <= month t <= 12 /\ 1 <= day t <= 31 /\
  0 <= hour t <= 23 /\ 0 <= minute t <= 59 /\ 0 <= second t <= 59.

Definition is_digit (c : ascii) : bool :=
  (48 <=? nat_of_ascii c)%nat && (nat_of_ascii c <=? 57)%nat.

(** How many line feeds a text contains. *)
Fixpoint count_newlines (s : string) : nat :=
  match s with
  | EmptyString => O
  | String c rest => ((if Ascii.eqb c "010" then 1 else 0) + count_newlines rest)%nat
  end.

(** ** A replay source for concrete runs *)

Module Replay.

Inductive Source := FromFile (f : string) | FromDevice (kw : CameraKwargs).

(** The state of the stand-in camera: where it was opened from, the frames
    still to be delivered and whether the wide range was requested. *)
Record State := mkState {
  source : Source;
  pending : list (list (list Z));
  wide : bool;
  applied : bool
}.

Definition next (c : State) : (bool * list (list Z)) * State :=
  match pending c with
  | [] => ((false, []), c)
  | f :: rest => ((true, f), mkState (source c) rest (wide c) (applied c))
  end.

Definition frame_height (frames : list (list (list Z))) : Z :=
  Z.of_nat (length (hd [] frames)).

Definition frame_width (frames : list (list (list Z))) : Z :=
  Z.of_nat (length (hd [] (hd [] frames))).

(** Modelled from the spec: the replay source of section 4.1, delivering the
    recorded [frames] one per [read] and reporting failure once they are
    exhausted; conversion maps every raw sample through the lookup table
    (section 4.3).  It stands in for the absent [irpythermal] module in the
    concrete runs below. *)
#[local] Instance driver (frames : list (list (list Z))) (table : Z -> float)
  : CameraDriver := {
  camera := State;
  RawFrame := list (list Z);
  LookupTable := Z -> float;
  CameraEmulator f := mkState (FromFile f) frames false false;
  Camera kw := mkState (FromDevice kw) frames false false;
  width _ := frame_width frames;
  height _ := frame_height frames;
  temperature_range_high c := mkState (source c) (pending c) true (applied c);
  wait_for_range_application c := mkState (source c) (pending c) (wide c) true;
  read := next;
  info _ := ([("model", "replay")], table);
  convert_to_frame _ raw lut := map (map lut) raw
}.

Definition total (a : Matrix) : float := fold_left PrimFloat.add (concat a) 0%float.

Definition count (a : Matrix) : float := PrimFloat.of_uint63 (Uint63.of_Z (Z.of_nat (length (concat a)))).

Definition mean (a : Matrix) : float := (total a / count a)%float.

Definition std (a : Matrix) : float :=
  let mu := mean a in
  PrimFloat.sqrt (mean (map (map (fun x => ((x - mu) * (x - mu))%float)) a)).

(** Stand-ins for the library functions: averages by plain left-to-right
    summation, a grey colour table and folder/name path text. *)
#[local] Instance libs : Libs := {
  np_mean := mean;
  np_std := std;
  COLORMAP_INFERNO v := (v, v, v);
  path_str p := fst p +:+ "/" +:+ snd p
}.

(** The 4 x 4 frame of raw value 100 and the table sending 100 to 23.5. *)
Definition uniform_frame : list (list Z) := repeat (repeat 100 4) 4.

Definition table (raw : Z) : float :=
  if raw =? 100 then 23.5%float else PrimFloat.of_uint63 (Uint63.of_Z raw).

(** A table with both zeros: raw 0 is [0.0], every other raw value [-0.0]. *)
Definition zeros_table (raw : Z) : float :=
  if raw =? 0 then 0%float else (-0)%float.

Definition noon : datetime := mkDatetime 2024 3 9 12 0 5.

Definition default_args (f : option string) : Args :=
  mkArgs false None None 10 "." false f.

(** The command line [rec.npy -s n]. *)
Definition rec_args (n : Z) : Args := mkArgs false None None n "." false (Some "rec.npy").

(** A file system in which the four names of the run at [noon] are taken. *)
Definition taken : gmap Path FileContent :=
  <[(".", simple_name (strftime noon)) := TextFile "old"]>
  (<[(".", metadata_name (strftime noon)) := TextFile "old"]>
  (<[(".", numpy_name (strftime noon)) := TextFile "old"]>
  (<[(".", image_name (strftime noon)) := TextFile "old"]> ∅))).

End Replay.


(** * Properties *)

(** ** The numeric text and the tests on strings, on samples *)

Example format_2f_samples :
  map format_2f [23.5; 0.125; 0.375; 2.5; 1234.5; -0.0009765625; 0; infinity]%float =
  ["23.50"; "0.12"; "0.38"; "2.50"; "1234.50"; "-0.00"; "0.00"; "inf"].
Proof. vm_compute. reflexivity. Qed.

Example normalize_three_levels :
  normalize [[20; 25; 30]]%float 20 30 = [[Some 0; Some 127; Some 255]].
Proof. vm_compute. reflexivity. Qed.

Example np_min_max_sample :
  np_min [[3; 1]; [2; 5]]%float = inr 1%float /\
  np_max [[3; 1]; [2; 5]]%float = inr 5%float /\
  np_min [[]; []] = inl (zero_size "minimum") /\
  np_min [[0; -0]]%float = inr (-0)%float /\
  np_max [[0; -0]]%float = inr (-0)%float.
Proof. vm_compute. repeat split. Qed.

Example endswith_samples :
  endswith "rec.npy" ".npy" = true /\ endswith "frames.raw" ".npy" = false /\
  endswith "npy" ".npy" = false /\ endswith "" ".npy" = false.
Proof. vm_compute. repeat split. Qed.

Example strftime_sample :
  strftime (mkDatetime 2024 3 9 12 0 5) = "2024-03-09_12-00-05".
Proof. vm_compute. reflexivity. Qed.

(** ** The effect monad *)

Section RunLaws.
Context {A B : Type}.

Lemma bind_done (m : Run A) (k : A -> Run B) fs a fs' t :
  m fs = mkResult (Done a) fs' t ->
  bind m k fs = after t (k a fs').
Proof. intros E. unfold bind, after. rewrite E. reflexivity. Qed.

Lemma bind_raised (m : Run A) (k : A -> Run B) fs e fs' t :
  m fs = mkResult (Raised e) fs' t ->
  bind m k fs = mkResult (Raised e) fs' t.
Proof. intros E. unfold bind. rewrite E. reflexivity. Qed.

Lemma bind_emit (ev : Event) (k : unit -> Run B) fs :
  bind (emit ev) k fs = after [ev] (k tt fs).
Proof. reflexivity. Qed.

Lemma after_after (t1 t2 : list Event) (r : Result A) :
  after t1 (after t2 r) = after (t1 ++ t2) r.
Proof. unfold after. simpl. rewrite app_assoc. reflexivity. Qed.

Lemma after_nil (r : Result A) : after [] r = r.
Proof. destruct r. reflexivity. Qed.

Lemma bind_lift_inr (a : A) (k : A -> Run B) fs : bind (lift (inr a)) k fs = k a fs.
Proof. unfold bind, lift. cbn. destruct (k a fs). reflexivity. Qed.

Lemma bind_lift_inl (e : Exn) (k : A -> Run B) fs :
  bind (lift (inl e)) k fs = mkResult (Raised e) fs [].
Proof. reflexivity. Qed.

Lemma bind_write (p : Path) (c : FileContent) (k : unit -> Run B) fs :
  bind (write_file p c) k fs = after [WriteFile p] (k tt (<[p := c]> fs)).
Proof. reflexivity. Qed.

Lemma bind_bind {C : Type} (m : Run A) (f : A -> Run B) (g : B -> Run C) fs :
  bind (bind m f) g fs = bind m (fun x => bind (f x) g) fs.
Proof.
  unfold bind. destruct (m fs) as [[a|e] fs1 t1]; cbn; [|reflexivity].
  destruct (f a fs1) as [[b|e] fs2 t2]; cbn; [|reflexivity].
  rewrite app_assoc. reflexivity.
Qed.

End RunLaws.

(** Counting over a trace written out event by event. *)
Ltac count_explicit :=
  cbn [count_events List.filter length app Nat.add Nat.mul
       is_read is_sleep is_release is_write is_range is_new_camera].

Lemma count_events_app p t1 t2 :
  count_events p (t1 ++ t2) = (count_events p t1 + count_events p t2)%nat.
Proof. unfold count_events. rewrite List.filter_app, length_app. reflexivity. Qed.

Lemma length_range n : length (range n) = Z.to_nat n.
Proof. unfold range. rewrite length_map, length_seq. reflexivity. Qed.

(** ** Stabilisation *)

Section Stabilisation.
Context {driver : CameraDriver}.

Lemma stabilize_run total indices : forall cam fs,
  stabilize total indices cam fs =
  mkResult (Done (drain (length indices) cam)) fs (discard_events total indices).
Proof.
  induction indices as [|i rest IH]; intros cam fs.
  - reflexivity.
  - cbn [stabilize discard_events flat_map length drain].
    rewrite bind_emit.
    unfold milestone. destruct ((i + 1) mod 5 =? 0).
    + unfold print. rewrite bind_emit, bind_emit, IH. reflexivity.
    + erewrite (bind_done (ret tt)) by reflexivity.
      rewrite bind_emit, IH. reflexivity.
Qed.

Lemma discard_events_count p total indices :
  (forall line, p (Print line) = false) ->
  count_events p (discard_events total indices) =
  (((if p Read then 1 else 0) + (if p (Sleep pause) then 1 else 0)) * length indices)%nat.
Proof.
  intros Hp.
  induction indices as [|i rest IH]; [cbn; lia|].
  cbn [discard_events flat_map]. fold (discard_events total rest).
  rewrite count_events_app, IH.
  unfold milestone, count_events. destruct (_ =? 0); cbn [List.filter app];
    rewrite ?Hp; destruct (p Read), (p (Sleep pause)); cbn [length]; lia.
Qed.

(** Reads and pauses alternate: each discarded read is followed by one
    pause before anything else is read. *)
Lemma discard_events_alternate total indices :
  List.filter (fun ev => is_read ev || is_sleep ev) (discard_events total indices) =
  flat_map (fun _ => [Read; Sleep pause]) indices.
Proof.
  induction indices as [|i rest IH]; [reflexivity|].
  cbn [discard_events flat_map]. fold (discard_events total rest).
  rewrite List.filter_app, IH.
  unfold milestone. destruct (_ =? 0); reflexivity.
Qed.

End Stabilisation.

(** ** Reductions *)

Lemma np_min_empty (a : Matrix) :
  concat a = [] -> np_min a = inl (zero_size "minimum").
Proof. intros E. unfold np_min. rewrite E. reflexivity. Qed.

Lemma np_min_value (a : Matrix) mn : np_min a = inr mn -> concat a <> [].
Proof. unfold np_min. destruct (concat a); [discriminate | intros _; discriminate]. Qed.

Lemma np_max_defined (a : Matrix) :
  concat a <> [] -> exists mx, np_max a = inr mx.
Proof.
  unfold np_max. destruct (concat a) as [|x xs]; [congruence|]. intros _. eauto.
Qed.

Lemma np_min_defined (a : Matrix) :
  concat a <> [] -> exists mn, np_min a = inr mn.
Proof.
  unfold np_min. destruct (concat a) as [|x xs]; [congruence|]. intros _. eauto.
Qed.

(** ** Artifact names *)

Lemma append_inj_l (s x y : string) : s +:+ x = s +:+ y -> x = y.
Proof. induction s as [|c s IH]; cbn; intros E; [exact E | injection E; auto]. Qed.

Lemma artifact_names_distinct (T : string) :
  image_name T <> numpy_name T /\ image_name T <> metadata_name T /\
  image_name T <> simple_name T /\ numpy_name T <> metadata_name T /\
  numpy_name T <> simple_name T /\ metadata_name T <> simple_name T.
Proof.
  unfold image_name, numpy_name, metadata_name, simple_name.
  repeat split; intros E; do 2 apply append_inj_l in E; discriminate E.
Qed.

(** ** The capture phases *)

Section Capture.
Context {driver : CameraDriver} {libs : Libs}.

#[local] Arguments String.append : simpl never.
#[local] Arguments format_2f : simpl never.
#[local] Arguments str_int : simpl never.
#[local] Arguments strftime : simpl never.
#[local] Arguments normalize : simpl never.
#[local] Arguments applyColorMap : simpl never.
#[local] Arguments metadata_text : simpl never.
#[local] Arguments simple_text : simpl never.
#[local] Arguments image_name : simpl never.
#[local] Arguments numpy_name : simpl never.
#[local] Arguments metadata_name : simpl never.
#[local] Arguments simple_name : simpl never.

Lemma process_raises args now cam raw fs e :
  np_min (frame_of cam raw) = inl e ->
  process args now cam raw fs = mkResult (Raised e) fs [GetInfo; Convert].
Proof.
  intros E. unfold frame_of in E. unfold process.
  rewrite !bind_emit, E, bind_lift_inl. reflexivity.
Qed.

Lemma process_done args now cam raw fs mn mx :
  np_min (frame_of cam raw) = inr mn ->
  np_max (frame_of cam raw) = inr mx ->
  let T := strftime now in
  let dir := output_folder args in
  exists t,
    process args now cam raw fs =
    mkResult (Done tt)
      (<[(dir, simple_name T) := TextFile (simple_text mn mx)]>
      (<[(dir, metadata_name T) :=
           TextFile (metadata_text T (width cam) (height cam) mn mx
                       (np_mean (frame_of cam raw)) (np_std (frame_of cam raw))
                       (fst (info cam)))]>
      (<[(dir, numpy_name T) := NpyFile (frame_of cam raw)]>
      (<[(dir, image_name T) :=
           PngFile (applyColorMap (normalize (frame_of cam raw) mn mx))]> fs))))
      (t ++ [Release; Print (nl +:+ "Done!")])%list /\
    count_events is_release t = 0%nat /\
    count_events is_range t = 0%nat /\
    count_events is_read t = 0%nat /\
    count_events is_write t = 4%nat.
Proof.
  intros Emin Emax. unfold frame_of in *. cbv zeta.
  unfold process, print_statistics, print.
  rewrite !bind_emit, Emin, bind_lift_inr, Emax, bind_lift_inr.
  repeat (rewrite bind_bind || rewrite bind_emit || rewrite bind_write).
  rewrite !after_after.
  unfold after, emit. cbn [outcome files trace app fst snd].
  match goal with
  | |- exists t, mkResult _ _ ?l = _ /\ _ =>
      exists (firstn (length l - 2) l); repeat split
  end.
Qed.

(** From the opened camera to the outcome: the two prints, the discarded
    reads, the final read, then one of the two continuations. *)
Lemma capture_run args now cam fs :
  let N := stabilization args in
  let cam1 := drain (Z.to_nat N) cam in
  capture args now cam fs =
  after ([Print ("Camera resolution: " +:+ str_int (width cam) +:+ " x " +:+
                 str_int (height cam));
          Print ("Stabilizing (skipping " +:+ str_int N +:+ " frames)...")]
         ++ discard_events N (range N)
         ++ [Print "Capturing final frame..."; Read])%list
    (if negb (fst (fst (read cam1)))
     then mkResult (Done tt) fs
            [Print "Error: could not read frame from camera"; Release]
     else process args now (snd (read cam1)) (snd (fst (read cam1))) fs).
Proof.
  intros N cam1. unfold capture, print.
  rewrite !bind_emit.
  erewrite bind_done by apply stabilize_run.
  rewrite length_range. fold N cam1.
  rewrite !bind_emit, !after_after.
  f_equal.
  - cbn [app]. rewrite <- app_assoc. reflexivity.
  - destruct (negb (fst (fst (read cam1)))); reflexivity.
Qed.

End Capture.

(** ** Opening the camera *)

Section Opening.
Context {driver : CameraDriver} {libs : Libs}.

Lemma truthy_str_nonempty (s : string) : truthy_str s = true <-> s <> "".
Proof.
  unfold truthy_str. destruct (String.eqb_spec s ""); cbn; split; congruence.
Qed.

Lemma camera_kwargs_run args fs :
  camera_kwargs args fs = mkResult (Done (collected_kwargs args)) fs (device_events args).
Proof.
  unfold camera_kwargs, collected_kwargs, device_events, bind, emit, ret.
  destruct (rawcam args), (device args) as [p|], (offset args) as [o|]; cbn;
    try destruct (truthy_str p); try destruct (truthy_float o); reflexivity.
Qed.

Lemma open_live_run args fs :
  open_live args fs =
  mkResult (Done (live_camera args)) fs
    (device_events args ++ NewCamera (collected_kwargs args) :: range_events args)%list.
Proof.
  unfold open_live, live_camera, range_events.
  erewrite bind_done by apply camera_kwargs_run.
  destruct (high_range args); reflexivity.
Qed.

Lemma open_camera_emulator args fs :
  uses_emulator args = true ->
  exists f, file args = Some f /\
    open_camera args fs =
    mkResult (Done (CameraEmulator f)) fs
      [NewEmulator f; Print ("Using emulator with file: " +:+ f)].
Proof.
  unfold uses_emulator, open_camera. destruct (file args) as [f|]; [|discriminate].
  intros E. rewrite E. exists f. split; reflexivity.
Qed.

Lemma open_camera_live args fs :
  uses_emulator args = false -> open_camera args fs = open_live args fs.
Proof.
  unfold uses_emulator, open_camera. destruct (file args) as [f|]; [|reflexivity].
  intros E. rewrite E. reflexivity.
Qed.

End Opening.

(** ** The whole run *)

Section WholeRun.
Context {driver : CameraDriver} {libs : Libs}.

Lemma open_camera_total args fs :
  exists cam t,
    open_camera args fs = mkResult (Done cam) fs t /\
    count_events is_release t = 0%nat /\
    count_events is_read t = 0%nat /\
    count_events is_write t = 0%nat /\
    (uses_emulator args = true -> count_events is_range t = 0%nat).
Proof.
  destruct (uses_emulator args) eqn:U.
  - destruct (open_camera_emulator args fs U) as (f & _ & E).
    do 2 eexists. split; [exact E|]. repeat split.
  - rewrite (open_camera_live args fs U), open_live_run.
    do 2 eexists. split; [reflexivity|].
    unfold device_events, range_events.
    destruct (device args) as [p|]; [destruct (truthy_str p)|];
      destruct (high_range args); repeat split; discriminate.
Qed.

Lemma main_run args now fs cam t :
  open_camera args fs = mkResult (Done cam) fs t ->
  main args now fs =
  after ([Mkdir (output_folder args); Print "Initializing camera..."] ++ t)%list
    (capture args now cam fs).
Proof.
  intros E. unfold main, print. rewrite !bind_emit.
  erewrite bind_done by exact E.
  rewrite !after_after. reflexivity.
Qed.

Lemma opened_is (args : Args) fs cam cam' t :
  open_camera args fs = mkResult (Done cam') fs t ->
  outcome (open_camera args fs) = Done cam -> cam' = cam.
Proof. intros E H. rewrite E in H. cbn in H. congruence. Qed.

(** The events of [capture], whichever way it ends. *)
Lemma capture_summary args now cam fs :
  let r := capture args now cam fs in
  count_events is_range (trace r) = 0%nat /\
  count_events is_read (trace r) = S (Z.to_nat (stabilization args)) /\
  match outcome r with
  | Done _ => count_events is_release (trace r) = 1%nat
  | Raised _ =>
      count_events is_release (trace r) = 0%nat /\
      count_events is_write (trace r) = 0%nat /\ files r = fs
  end.
Proof.
  cbv zeta. rewrite capture_run. cbv zeta.
  set (cam1 := drain _ cam).
  unfold after. cbn [outcome files trace].
  rewrite !count_events_app.
  rewrite !discard_events_count by reflexivity. rewrite length_range.
  cbn [is_range is_read is_release is_write].
  destruct (negb (fst (fst (read cam1)))).
  - cbn [outcome files trace]. count_explicit. repeat split; lia.
  - destruct (np_min (frame_of (snd (read cam1)) (snd (fst (read cam1))))) as [e|mn] eqn:Emin.
    + rewrite (process_raises _ _ _ _ _ _ Emin). cbn [outcome files trace].
      count_explicit. repeat split; lia.
    + destruct (np_max_defined _ (np_min_value _ _ Emin)) as [mx Emax].
      destruct (process_done args now _ _ fs mn mx Emin Emax)
        as (t' & Ep & Hrel & Hrng & Hrd & _).
      rewrite Ep. cbn [outcome trace]. rewrite !count_events_app, Hrel, Hrng, Hrd.
      count_explicit. repeat split; lia.
Qed.

End WholeRun.

(** * The claims *)

(** ** Normalisation of a uniform frame *)

(** C1. On the uniform 4 x 4 frame of 23.5 the minimum and maximum coincide,
    so line 117 divides by [temp_max - temp_min = 0] with no guard in front
    of it: every quotient is 0/0, a NaN, and the byte stored for each pixel
    is the platform's conversion of NaN rather than a 0 chosen by the code.
    The claim's guarded mapping to 0 without a division by zero is not what
    the code does. *)
Theorem normalize_uniform_divides_zero_by_zero :
  let temp_frame := repeat (repeat 23.5%float 4) 4 in
  np_min temp_frame = inr 23.5%float /\
  np_max temp_frame = inr 23.5%float /\
  Prim2SF (23.5 - 23.5)%float = S754_zero false /\
  Forall (Forall (fun q => is_nan q = true)) (ratio_frame temp_frame 23.5 23.5) /\
  normalize temp_frame 23.5 23.5 = repeat (repeat None 4) 4.
Proof.
  cbv zeta. split; [|split; [|split; [|split]]]; try (vm_compute; reflexivity).
  unfold ratio_frame. cbn [repeat map].
  repeat first [apply List.Forall_nil | apply List.Forall_cons];
    vm_compute; reflexivity.
Qed.

(** ** Release of the camera *)

Section ReleasePaths.
Context {driver : CameraDriver} {libs : Libs}.

(** C2, as amended.  Whatever the camera delivers, a run that returns (after
    a successful capture or after a failed final read) has called
    [release()] exactly once, as its last camera call: nothing follows it
    but, after a capture, the closing line on the console.  A run that ends
    in an exception has not called it at all, since nothing in [main]
    intercepts the exception. *)
Theorem release_once_on_return_never_on_raise (args : Args) (now : datetime) fs :
  let r := main args now fs in
  match outcome r with
  | Done _ =>
      count_events is_release (trace r) = 1%nat /\
      exists t1 t2, trace r = (t1 ++ Release :: t2)%list /\
                    (t2 = [] \/ t2 = [Print (String "010" "Done!")]) /\
                    count_events is_camera_call t2 = 0%nat /\
                    count_events is_write t2 = 0%nat
  | Raised _ => count_events is_release (trace r) = 0%nat
  end.
Proof.
  cbv zeta.
  destruct (open_camera_total args fs) as (cam & t & E & Hrel & _).
  rewrite (main_run _ _ _ _ _ E).
  pose proof (capture_summary args now cam fs) as S. cbv zeta in S.
  destruct S as (_ & _ & S).
  unfold after. cbn [outcome trace].
  rewrite !count_events_app, Hrel. cbn [count_events List.filter is_release length].
  revert S. rewrite capture_run. cbv zeta. set (cam1 := drain _ cam).
  unfold after. cbn [outcome trace].
  destruct (negb (fst (fst (read cam1)))).
  - cbn [outcome trace]. intros S. split; [lia|].
    match goal with
    | |- exists t1 t2, (?p ++ ?c ++ [?pe; Release])%list = _ /\ _ =>
        exists (p ++ c ++ [pe])%list, []
    end.
    split; [|split; [left; reflexivity | split; reflexivity]].
    rewrite <- !app_assoc. reflexivity.
  - destruct (np_min (frame_of (snd (read cam1)) (snd (fst (read cam1))))) as [e|mn] eqn:Emin.
    + rewrite (process_raises _ _ _ _ _ _ Emin). cbn [outcome trace]. lia.
    + destruct (np_max_defined _ (np_min_value _ _ Emin)) as [mx Emax].
      destruct (process_done args now _ _ fs mn mx Emin Emax) as (t' & Ep & _).
      rewrite Ep. cbn [outcome trace]. intros S. split; [lia|].
      match goal with
      | |- exists t1 t2, (?p ++ ?c ++ t' ++ [Release; ?d])%list = _ /\ _ =>
          exists (p ++ c ++ t')%list, [d]
      end.
      split; [|split; [right; reflexivity | split; reflexivity]].
      rewrite <- !app_assoc. reflexivity.
Qed.

(** C3.  When the final read reports failure the operator is told so, the
    camera is released once, the run returns normally, and no file is
    written: the file system is left as it was found. *)
Theorem failed_final_read_reported_released (args : Args) (now : datetime) fs cam :
  outcome (open_camera args fs) = Done cam ->
  fst (fst (read (drain (Z.to_nat (stabilization args)) cam))) = false ->
  let r := main args now fs in
  outcome r = Done tt /\
  files r = fs /\
  count_events is_write (trace r) = 0%nat /\
  count_events is_release (trace r) = 1%nat /\
  exists t, trace r =
            (t ++ [Read; Print "Error: could not read frame from camera"; Release])%list.
Proof.
  intros Hopen Hfail. cbv zeta.
  destruct (open_camera_total args fs) as (cam' & t & E & Hrel & _ & Hwr & _).
  rewrite (opened_is _ _ _ _ _ E Hopen) in E. clear cam' Hopen.
  rewrite (main_run _ _ _ _ _ E), capture_run. cbv zeta.
  rewrite Hfail. unfold after. cbn [negb outcome files trace].
  rewrite !count_events_app, Hrel, Hwr.
  rewrite !discard_events_count by reflexivity.
  repeat split.
  match goal with
  | |- exists suffix_start, (?p ++ ?c ++ ?e)%list = _ =>
      match c with
      | (?a ++ ?d ++ [?x; Read])%list => exists (p ++ a ++ d ++ [x])%list
      end
  end.
  rewrite <- !app_assoc. reflexivity.
Qed.

(** C4, as amended.  [main] makes no test for an empty frame and handles no
    exception.  When the converted frame has no element, the first statistic
    itself fails: [np.min] raises numpy's [ValueError] for a minimum over
    size zero, and the error leaves [main] as raised.  The run stops at the
    conversion: no later statistic is reached, nothing is shown or written,
    and the camera is not released. *)
Theorem empty_frame_fails_before_statistics (args : Args) (now : datetime) fs cam :
  outcome (open_camera args fs) = Done cam ->
  let cam1 := drain (Z.to_nat (stabilization args)) cam in
  let temp_frame := frame_of (snd (read cam1)) (snd (fst (read cam1))) in
  fst (fst (read cam1)) = true ->
  concat temp_frame = [] ->
  let r := main args now fs in
  np_min temp_frame = inl (zero_size "minimum") /\
  outcome r =
    Raised (ValueError
              "zero-size array to reduction operation minimum which has no identity") /\
  files r = fs /\
  count_events is_write (trace r) = 0%nat /\
  count_events is_release (trace r) = 0%nat /\
  exists t, trace r = (t ++ [Read; GetInfo; Convert])%list.
Proof.
  intros Hopen cam1 temp_frame Hok Hempty. cbv zeta.
  pose proof (np_min_empty _ Hempty) as Emin.
  destruct (open_camera_total args fs) as (cam' & t & E & Hrel & _ & Hwr & _).
  rewrite (opened_is _ _ _ _ _ E Hopen) in E. clear cam' Hopen.
  rewrite (main_run _ _ _ _ _ E), capture_run. cbv zeta. fold cam1.
  rewrite Hok. cbn [negb]. fold temp_frame in Emin |- *.
  rewrite (process_raises _ _ _ _ _ _ Emin).
  unfold after. cbn [outcome files trace].
  rewrite !count_events_app, Hwr, Hrel.
  rewrite !discard_events_count by reflexivity.
  split; [exact Emin|]. repeat split.
  match goal with
  | |- exists suffix_start, (?p ++ ?c ++ ?e)%list = _ =>
      match c with
      | (?a ++ ?d ++ [?x; Read])%list => exists (p ++ a ++ d ++ [x])%list
      end
  end.
  rewrite <- !app_assoc. reflexivity.
Qed.

End ReleasePaths.

(** ** Stabilisation phase *)

(** C5.  For a count [N >= 0] the stabilisation loop performs exactly [N]
    reads and [N] pauses, and nothing at all when [N = 0].  Reads and pauses
    alternate, one pause after each read and before the next, and each pause
    lasts the double nearest to 0.01 s, a duration above zero.  The events
    are the same for every camera, whatever its reads return: the results
    are dropped, and a read that reports failure changes nothing.  The loop
    always hands over to the capture phase, which goes on to announce and
    issue the final read. *)
Theorem stabilization_reads_N_and_drops_results
    {driver : CameraDriver} {libs : Libs}
    (args : Args) (now : datetime) (cam : camera) fs :
  0 <= stabilization args ->
  let N := stabilization args in
  let r := stabilize N (range N) cam fs in
  outcome r = Done (drain (Z.to_nat N) cam) /\
  files r = fs /\
  trace r = flat_map (fun i => Read :: milestone N i ++ [Sleep pause])%list (range N) /\
  Z.of_nat (count_events is_read (trace r)) = N /\
  Z.of_nat (count_events is_sleep (trace r)) = N /\
  List.filter (fun ev => is_read ev || is_sleep ev) (trace r) =
    flat_map (fun _ => [Read; Sleep pause]) (range N) /\
  Prim2SF pause = S754_finite false 5764607523034235 (-59) /\
  float_lt 0 pause = true /\
  (N = 0 -> trace r = []) /\
  (forall (other : CameraDriver) (cam' : @camera other) fs',
      trace (@stabilize other N (range N) cam' fs') = trace r) /\
  exists t1 t2,
    trace (capture args now cam fs) =
    (t1 ++ trace r ++ Print "Capturing final frame..." :: Read :: t2)%list /\
    count_events is_read t1 = 0%nat.
Proof.
  intros HN N r. subst r.
  rewrite stabilize_run. cbn [outcome files trace].
  rewrite length_range.
  rewrite !discard_events_count by reflexivity. rewrite length_range.
  cbn [is_read is_sleep].
  do 5 (split; [reflexivity || lia|]).
  split; [apply discard_events_alternate|].
  do 2 (split; [vm_compute; reflexivity|]).
  split; [|split].
  - intros E. fold N in E |- *. rewrite E. reflexivity.
  - intros other cam' fs'. rewrite stabilize_run. reflexivity.
  - rewrite capture_run. cbv zeta. unfold after. cbn [trace].
    match goal with
    | |- exists t1 t2, ((?a ++ _ ++ [_; Read]) ++ ?e)%list = _ /\ _ =>
        exists a, e
    end.
    split; [|reflexivity].
    rewrite <- !app_assoc. reflexivity.
Qed.


(** ** Choice of the camera variant *)

(** One step of [+:+], which [simpl] leaves folded. *)
Lemma append_cons (c : ascii) (p s : string) : String c p +:+ s = String c (p +:+ s).
Proof. reflexivity. Qed.

Lemma length_append (p s : string) :
  String.length (p +:+ s) = (String.length p + String.length s)%nat.
Proof.
  induction p as [|c p IH]; [reflexivity|].
  rewrite append_cons. cbn [String.length]. rewrite IH. reflexivity.
Qed.

Lemma substring_whole (s : string) : substring 0 (String.length s) s = s.
Proof. induction s as [|c s IH]; cbn; [reflexivity | rewrite IH; reflexivity]. Qed.

Lemma substring_after (p s : string) :
  substring (String.length p) (String.length s) (p +:+ s) = s.
Proof.
  induction p as [|c p IH]; [apply substring_whole|].
  rewrite append_cons. cbn [String.length substring]. exact IH.
Qed.

Lemma substring_split (s : string) : forall i : nat,
  (i <= String.length s)%nat ->
  s = substring 0 i s +:+ substring i (String.length s - i) s.
Proof.
  induction s as [|c s IH]; intros [|i] Hi; cbn [String.length] in *.
  - reflexivity.
  - lia.
  - cbn [substring Nat.sub]. rewrite substring_whole. reflexivity.
  - cbn [substring Nat.sub]. rewrite append_cons. f_equal. apply IH. lia.
Qed.

(** [endswith] is the suffix relation. *)
Lemma endswith_spec (s suffix : string) :
  endswith s suffix = true <-> exists stem, s = stem +:+ suffix.
Proof.
  unfold endswith. rewrite andb_true_iff, Nat.leb_le, String.eqb_eq. split.
  - intros [Hle Hsub].
    exists (substring 0 (String.length s - String.length suffix) s).
    rewrite (substring_split s (String.length s - String.length suffix)) at 1 by lia.
    f_equal. rewrite <- Hsub at 3. f_equal. lia.
  - intros [stem ->]. rewrite length_append. split; [lia|].
    replace (String.length stem + String.length suffix - String.length suffix)%nat
      with (String.length stem) by lia.
    apply substring_after.
Qed.

Lemma endswith_nonempty (s : string) : endswith s ".npy" = true -> truthy_str s = true.
Proof.
  intros H. apply truthy_str_nonempty. intros ->. discriminate H.
Qed.

(** C6, as amended.  A positional file argument selects the replay source
    exactly when its name ends in [.npy]: then the emulator is built over
    that very file and no live camera is constructed.  With any other name
    the argument is not used and the live camera is opened instead, just as
    when no file is given. *)
Theorem replay_variant_iff_npy_suffix
    {driver : CameraDriver} (args : Args) (f : string) fs :
  file args = Some f ->
  ((exists stem, f = stem +:+ ".npy") ->
     open_camera args fs =
     mkResult (Done (CameraEmulator f)) fs
       [NewEmulator f; Print ("Using emulator with file: " +:+ f)]) /\
  (~ (exists stem, f = stem +:+ ".npy") ->
     open_camera args fs = open_live args fs /\
     open_camera args fs =
     mkResult (Done (live_camera args)) fs
       (device_events args ++ NewCamera (collected_kwargs args) :: range_events args)%list).
Proof.
  intros Hf. split; intros H.
  - apply endswith_spec in H.
    unfold open_camera. rewrite Hf, H, (endswith_nonempty _ H). reflexivity.
  - assert (uses_emulator args = false) as U.
    { unfold uses_emulator. rewrite Hf.
      destruct (endswith f ".npy") eqn:E; [|apply andb_false_r].
      exfalso. apply H, endswith_spec, E. }
    rewrite (open_camera_live args fs U). split; [reflexivity|apply open_live_run].
Qed.

(** ** Options that reach the camera *)

Section Options.
Context {driver : CameraDriver} {libs : Libs}.

Lemma device_events_count p args :
  (forall path, p (VideoCapture path) = false) ->
  count_events p (device_events args) = 0%nat.
Proof.
  intros Hp. unfold device_events.
  destruct (device args) as [path|]; [destruct (truthy_str path)|];
    unfold count_events; cbn [List.filter]; rewrite ?Hp; reflexivity.
Qed.

(** How many range calls a run makes. *)
Lemma main_range_count args now fs :
  count_events is_range (trace (main args now fs)) =
  if uses_emulator args then 0%nat else if high_range args then 2%nat else 0%nat.
Proof.
  pose proof (capture_summary args now) as S. cbv zeta in S.
  destruct (uses_emulator args) eqn:U.
  - destruct (open_camera_emulator args fs U) as (f & _ & E).
    rewrite (main_run _ _ _ _ _ E). unfold after. cbn [trace].
    rewrite !count_events_app. destruct (S (CameraEmulator f) fs) as (-> & _).
    reflexivity.
  - pose proof (open_live_run args fs) as E.
    rewrite <- (open_camera_live args fs U) in E.
    rewrite (main_run _ _ _ _ _ E). unfold after. cbn [trace].
    rewrite !count_events_app. destruct (S (live_camera args) fs) as (-> & _).
    rewrite device_events_count by reflexivity.
    unfold range_events. destruct (high_range args); reflexivity.
Qed.

Lemma kwargs_without_offset args z :
  offset args = Some z -> PrimFloat.eqb z 0 = true ->
  collected_kwargs args = collected_kwargs (with_offset None args).
Proof.
  intros Ho Hz. unfold collected_kwargs, truthy_float. cbn [with_offset rawcam device offset].
  rewrite Ho, Hz. reflexivity.
Qed.

Lemma open_camera_without_offset args z fs :
  offset args = Some z -> PrimFloat.eqb z 0 = true ->
  open_camera args fs = open_camera (with_offset None args) fs.
Proof.
  intros Ho Hz. unfold open_camera. cbn [with_offset file].
  assert (open_live args fs = open_live (with_offset None args) fs) as EL.
  { rewrite !open_live_run. unfold live_camera.
    rewrite <- (kwargs_without_offset _ _ Ho Hz). reflexivity. }
  destruct (file args) as [f|]; [destruct (truthy_str f && endswith f ".npy")|];
    (reflexivity || exact EL).
Qed.

(** C9, as amended.  An offset equal to zero fails the truthiness test of
    line 63, so the whole run is the run without the option.  An offset
    different from zero is stored under [fixed_offset] and handed to the
    live camera; when the replay source is selected no keyword argument is
    built and no live camera exists to receive the offset. *)
Theorem zero_offset_dropped_nonzero_reaches_live_camera
    (args : Args) (now : datetime) fs :
  (forall z, offset args = Some z -> PrimFloat.eqb z 0 = true ->
     open_camera args fs = open_camera (with_offset None args) fs /\
     main args now fs = main (with_offset None args) now fs) /\
  (forall x, offset args = Some x -> PrimFloat.eqb x 0 = false ->
     uses_emulator args = false ->
     fixed_offset (collected_kwargs args) = Some x /\
     open_camera args fs =
     mkResult (Done (live_camera args)) fs
       (device_events args ++ NewCamera (collected_kwargs args) :: range_events args)%list) /\
  (uses_emulator args = true ->
     count_events is_new_camera (trace (open_camera args fs)) = 0%nat).
Proof.
  split; [|split].
  - intros z Ho Hz.
    pose proof (open_camera_without_offset args z fs Ho Hz) as EO.
    split; [exact EO|].
    destruct (open_camera_total args fs) as (cam & t & E & _).
    rewrite (main_run _ _ _ _ _ E).
    rewrite EO in E. rewrite (main_run _ _ _ _ _ E).
    reflexivity.
  - intros x Ho Hx U. split.
    + unfold collected_kwargs, truthy_float. cbn [fixed_offset]. rewrite Ho, Hx. reflexivity.
    + rewrite (open_camera_live args fs U). apply open_live_run.
  - intros U. destruct (open_camera_emulator args fs U) as (f & _ & ->). reflexivity.
Qed.

(** C10.  When the replay source is selected a run makes no range call and
    no wait, and is the same run whatever the high-range option says.  A run
    that does make a range call is therefore one that opened the live
    camera with the option set. *)
Theorem replay_ignores_high_range (args : Args) (now : datetime) fs :
  (uses_emulator args = true ->
     count_events is_range (trace (main args now fs)) = 0%nat /\
     forall b, main (with_high_range b args) now fs = main args now fs) /\
  (count_events is_range (trace (main args now fs)) <> 0%nat ->
     uses_emulator args = false /\ high_range args = true).
Proof.
  split.
  - intros U. split.
    + rewrite main_range_count, U. reflexivity.
    + intros b.
      destruct (open_camera_emulator args fs U) as (f & Hf & E).
      assert (uses_emulator (with_high_range b args) = true) as U' by exact U.
      destruct (open_camera_emulator (with_high_range b args) fs U') as (f' & Hf' & E').
      cbn [with_high_range file] in Hf'. rewrite Hf in Hf'. injection Hf' as <-.
      rewrite (main_run (with_high_range b args) now fs _ _ E').
      rewrite (main_run args now fs _ _ E).
      reflexivity.
  - rewrite main_range_count.
    destruct (uses_emulator args), (high_range args); intros H; try (exfalso; apply H; reflexivity).
    split; reflexivity.
Qed.

End Options.

(** ** Text without line breaks *)

Lemma has_newline_append (a b : string) :
  has_newline (a +:+ b) = has_newline a || has_newline b.
Proof.
  induction a as [|c a IH]; [reflexivity|].
  rewrite append_cons. cbn [has_newline]. rewrite IH, orb_assoc. reflexivity.
Qed.

Lemma uint_no_newline (d : Decimal.uint) :
  has_newline (NilEmpty.string_of_uint d) = false.
Proof. induction d; cbn [NilEmpty.string_of_uint has_newline]; try rewrite IHd; reflexivity. Qed.

Lemma str_int_no_newline (n : Z) : has_newline (str_int n) = false.
Proof.
  unfold str_int, NilZero.string_of_int, NilZero.string_of_uint.
  destruct (Z.to_int n) as [d|d]; destruct d; cbn [has_newline];
    rewrite ?uint_no_newline; reflexivity.
Qed.

Lemma format_2f_no_newline (x : float) : has_newline (format_2f x) = false.
Proof.
  unfold format_2f, two_digits.
  destruct (Prim2SF x) as [s|s| |s m e];
    try reflexivity; try (destruct s; reflexivity).
  rewrite !has_newline_append, !str_int_no_newline. destruct s; reflexivity.
Qed.

(** ** Uniform frames *)







(** ** The order of samples *)









(** Each reduction returns one of the samples. *)
Lemma fold_left_choice (f : float -> float -> float) :
  (forall a b, f a b = a \/ f a b = b) ->
  forall xs x, In (fold_left f xs x) (x :: xs).
Proof.
  intros Hf. induction xs as [|y xs IH]; intros x; cbn [fold_left].
  - left. reflexivity.
  - destruct (IH (f x y)) as [E|Hin].
    + rewrite <- E. destruct (Hf x y) as [->| ->]; [left | right; left]; reflexivity.
    + right. right. exact Hin.
Qed.


(** ** Line feeds in a text *)

Lemma append_assoc (a b c : string) : (a +:+ b) +:+ c = a +:+ b +:+ c.
Proof.
  induction a as [|ch a IH]; [reflexivity|].
  rewrite !append_cons, IH. reflexivity.
Qed.

Lemma count_newlines_append (a b : string) :
  count_newlines (a +:+ b) = (count_newlines a + count_newlines b)%nat.
Proof.
  induction a as [|c a IH]; [reflexivity|].
  rewrite append_cons. cbn [count_newlines]. rewrite IH. lia.
Qed.

Lemma count_newlines_none (s : string) : has_newline s = false -> count_newlines s = 0%nat.
Proof.
  induction s as [|c s IH]; [reflexivity|]. cbn [has_newline count_newlines].
  intros H. apply orb_false_iff in H as [-> H]. rewrite (IH H). reflexivity.
Qed.

(** ** The artifacts *)

Section Artifacts.
Context {driver : CameraDriver} {libs : Libs}.

(** The file system left by a run whose final read succeeds on a frame with
    at least one element. *)
Lemma main_success args now fs cam mn mx :
  outcome (open_camera args fs) = Done cam ->
  let cam1 := drain (Z.to_nat (stabilization args)) cam in
  let cam2 := snd (read cam1) in
  let temp_frame := frame_of cam2 (snd (fst (read cam1))) in
  fst (fst (read cam1)) = true ->
  np_min temp_frame = inr mn ->
  np_max temp_frame = inr mx ->
  let T := strftime now in
  let dir := output_folder args in
  outcome (main args now fs) = Done tt /\
  files (main args now fs) =
    <[(dir, simple_name T) := TextFile (simple_text mn mx)]>
    (<[(dir, metadata_name T) :=
         TextFile (metadata_text T (width cam2) (height cam2) mn mx
                     (np_mean temp_frame) (np_std temp_frame) (fst (info cam2)))]>
    (<[(dir, numpy_name T) := NpyFile temp_frame]>
    (<[(dir, image_name T) :=
         PngFile (applyColorMap (normalize temp_frame mn mx))]> fs))).
Proof.
  intros Hopen cam1 cam2 temp_frame Hok Emin Emax T dir.
  destruct (open_camera_total args fs) as (cam' & t & E & _).
  rewrite (opened_is _ _ _ _ _ E Hopen) in E. clear cam' Hopen.
  rewrite (main_run _ _ _ _ _ E), capture_run. cbv zeta. fold cam1.
  rewrite Hok. cbn [negb]. fold cam2.
  destruct (process_done args now cam2 _ fs mn mx Emin Emax) as (t' & -> & _).
  split; reflexivity.
Qed.

Lemma path_ne (dir a b : string) : a <> b -> (dir, a) <> (dir, b).
Proof. intros H E. apply H. congruence. Qed.

(** C7, as amended.  The writer does not look at what exists: after a run
    that captures a frame, each of the four paths derived from the timestamp
    holds this run's artifact, whatever the file system held there before (a
    file of the same name is replaced), and every other path is as it was. *)
Theorem artifacts_replace_files_of_same_name
    (args : Args) (now : datetime) fs cam mn mx :
  outcome (open_camera args fs) = Done cam ->
  let cam1 := drain (Z.to_nat (stabilization args)) cam in
  let cam2 := snd (read cam1) in
  let temp_frame := frame_of cam2 (snd (fst (read cam1))) in
  fst (fst (read cam1)) = true ->
  np_min temp_frame = inr mn ->
  np_max temp_frame = inr mx ->
  let T := strftime now in
  let dir := output_folder args in
  let left := files (main args now fs) in
  left !! (dir, image_name T) =
    Some (PngFile (applyColorMap (normalize temp_frame mn mx))) /\
  left !! (dir, numpy_name T) = Some (NpyFile temp_frame) /\
  left !! (dir, metadata_name T) =
    Some (TextFile (metadata_text T (width cam2) (height cam2) mn mx
                      (np_mean temp_frame) (np_std temp_frame) (fst (info cam2)))) /\
  left !! (dir, simple_name T) = Some (TextFile (simple_text mn mx)) /\
  forall p : Path,
    p <> (dir, image_name T) -> p <> (dir, numpy_name T) ->
    p <> (dir, metadata_name T) -> p <> (dir, simple_name T) ->
    left !! p = fs !! p.
Proof.
  intros Hopen cam1 cam2 temp_frame Hok Emin Emax T dir left.
  destruct (main_success args now fs cam mn mx Hopen Hok Emin Emax) as [_ E].
  subst left. rewrite E. clear E. subst T dir.
  destruct (artifact_names_distinct (strftime now)) as (H1 & H2 & H3 & H4 & H5 & H6).
  repeat split.
  - rewrite !lookup_insert_ne by (apply path_ne; congruence).
    apply lookup_insert_eq.
  - rewrite !lookup_insert_ne by (apply path_ne; congruence).
    apply lookup_insert_eq.
  - rewrite lookup_insert_ne by (apply path_ne; congruence).
    apply lookup_insert_eq.
  - apply lookup_insert_eq.
  - intros p N1 N2 N3 N4. rewrite !lookup_insert_ne by congruence. reflexivity.
Qed.


End Artifacts.

(** * Concrete runs *)

(** The runs below use the replay source of [Replay]: a recording of
    [frames] read through [Replay.table]. *)

Module Runs.
Import Replay.

(** C2, the claim as stated fails.  A recording whose only frame has no
    rows: the camera is opened and read once, the statistics raise, and the
    run ends without any call to [release()]. *)
Lemma release_skipped_when_statistics_raise :
  let r := main (driver := driver [[]] table) (libs := libs) (rec_args 0) noon ∅ in
  outcome r = Raised (zero_size "minimum") /\
  count_events is_read (trace r) = 1%nat /\
  count_events is_release (trace r) = 0%nat.
Proof. vm_compute. repeat split. Qed.

Lemma failed_final_read_witness :
  let r := main (driver := driver [] table) (libs := libs) (rec_args 10) noon ∅ in
  outcome r = Done tt /\ files r = ∅ /\ count_events is_release (trace r) = 1%nat.
Proof.
  destruct (failed_final_read_reported_released
              (driver := driver [] table) (libs := libs) (rec_args 10) noon ∅
              (CameraEmulator (CameraDriver := driver [] table) "rec.npy")
              eq_refl eq_refl) as (H1 & H2 & _ & H4 & _).
  repeat split; assumption.
Defined.

Lemma empty_frame_witness :
  let r := main (driver := driver [[]] table) (libs := libs) (rec_args 0) noon ∅ in
  outcome r = Raised (zero_size "minimum") /\ files r = ∅.
Proof.
  destruct (empty_frame_fails_before_statistics
              (driver := driver [[]] table) (libs := libs) (rec_args 0) noon ∅
              (CameraEmulator (CameraDriver := driver [[]] table) "rec.npy")
              eq_refl eq_refl eq_refl) as (_ & H1 & H2 & _).
  split; assumption.
Defined.

(** C4, the claim as stated fails.  On a recording whose only frame has no
    rows nothing checks the frame before the statistics and nothing catches
    the failure: the error is the one raised inside [np.min], it leaves
    [main] as raised rather than as a handled return, and it is the same
    outcome as [np.min] called on the frame directly. *)
Lemma empty_frame_error_escapes_main :
  let r := main (driver := driver [[]] table) (libs := libs) (rec_args 0) noon ∅ in
  np_min (map (map table) []) =
    inl (ValueError "zero-size array to reduction operation minimum which has no identity") /\
  outcome r =
    Raised (ValueError
              "zero-size array to reduction operation minimum which has no identity") /\
  outcome r <> Done tt /\
  List.filter is_camera_call (trace r) = [NewEmulator "rec.npy"; Read; GetInfo; Convert].
Proof. vm_compute. repeat split. discriminate. Qed.

(** Ten frames to discard, five recorded: reads six to ten fail and are
    passed over like the rest; every read is followed by a pause of 0.01 s,
    a duration above zero. *)
Lemma stabilization_witness :
  let five := repeat uniform_frame 5 in
  let cam := CameraEmulator (CameraDriver := driver five table) "rec.npy" in
  let r := stabilize (driver := driver five table) 10 (range 10) cam ∅ in
  count_events is_read (trace r) = 10%nat /\
  count_events is_sleep (trace r) = 10%nat /\
  List.filter (fun ev => is_read ev || is_sleep ev) (trace r) =
    concat (repeat [Read; Sleep pause] 10) /\
  float_lt 0 pause = true /\
  outcome r = Done (drain (H := driver five table) 10 cam).
Proof.
  intros five cam.
  assert (0 <= stabilization (rec_args 10)) as Hpos by (cbn; lia).
  destruct (stabilization_reads_N_and_drops_results
              (driver := driver five table) (libs := libs) (rec_args 10) noon cam ∅ Hpos)
    as (H1 & _ & _ & H4 & H5 & H6 & _ & H8 & _).
  cbv zeta in *. cbn [stabilization rec_args] in *.
  split; [|split; [|split; [|split]]].
  - apply Nat2Z.inj. exact H4.
  - apply Nat2Z.inj. exact H5.
  - exact H6.
  - exact H8.
  - exact H1.
Defined.

(** C6, the claim as stated fails.  A positional file whose name does not
    end in [.npy]: the live camera is constructed, with no keyword argument,
    and no emulator is opened on the file. *)
Lemma file_without_npy_suffix_opens_live_camera :
  let args := default_args (Some "frames.raw") in
  let r := open_camera (driver := driver [] table) args ∅ in
  file args = Some "frames.raw" /\
  outcome r = Done (Camera (CameraDriver := driver [] table) (mkKwargs None None None)) /\
  trace r = [NewCamera (mkKwargs None None None);
             Print "Using normal temperature range..."] /\
  outcome r <> Done (CameraEmulator (CameraDriver := driver [] table) "frames.raw").
Proof. vm_compute. repeat split. discriminate. Qed.

Lemma replay_variant_witness :
  trace (open_camera (driver := driver [] table) (default_args (Some "rec.npy")) ∅) =
    [NewEmulator "rec.npy"; Print "Using emulator with file: rec.npy"] /\
  open_camera (driver := driver [] table) (default_args (Some "frames.raw")) ∅ =
    open_live (driver := driver [] table) (default_args (Some "frames.raw")) ∅.
Proof.
  split.
  - destruct (replay_variant_iff_npy_suffix (driver := driver [] table)
                (default_args (Some "rec.npy")) "rec.npy" ∅ eq_refl) as [H _].
    rewrite H; [reflexivity|]. exists "rec". reflexivity.
  - destruct (replay_variant_iff_npy_suffix (driver := driver [] table)
                (default_args (Some "frames.raw")) "frames.raw" ∅ eq_refl) as [_ H].
    apply H. intros E. apply endswith_spec in E. vm_compute in E. discriminate E.
Defined.

(** C7, the claim as stated fails.  The four names exist before the run;
    after it none of them holds its earlier contents, and the min/max file
    holds the new figures. *)
Lemma existing_artifacts_are_overwritten :
  let r := main (driver := driver [uniform_frame] table) (libs := libs) (rec_args 0) noon taken in
  let T := strftime noon in
  outcome r = Done tt /\
  Forall (fun name => taken !! (".", name) = Some (TextFile "old") /\
                      files r !! (".", name) <> Some (TextFile "old"))
         [image_name T; numpy_name T; metadata_name T; simple_name T] /\
  files r !! (".", simple_name T) = Some (TextFile ("23.50" +:+ nl +:+ "23.50" +:+ nl)).
Proof.
  vm_compute. split; [reflexivity|]. split; [|reflexivity].
  repeat constructor; discriminate.
Qed.

Lemma artifacts_replace_witness :
  let r := main (driver := driver [uniform_frame] table) (libs := libs) (rec_args 0) noon taken in
  files r !! (".", numpy_name (strftime noon)) =
    Some (NpyFile (repeat (repeat 23.5%float 4) 4)) /\
  files r !! (".", "notes.txt") = taken !! (".", "notes.txt").
Proof.
  destruct (artifacts_replace_files_of_same_name
              (driver := driver [uniform_frame] table) (libs := libs)
              (rec_args 0) noon taken
              (CameraEmulator (CameraDriver := driver [uniform_frame] table) "rec.npy")
              23.5%float 23.5%float eq_refl eq_refl eq_refl eq_refl)
    as (_ & H2 & _ & _ & H5).
  split; [exact H2|].
  apply H5; vm_compute; discriminate.
Defined.


(** The min/max file of a frame holding both zeros: numpy's reductions keep
    the later of two samples that compare equal, so on [[0.0, -0.0]] both
    the minimum and the maximum are [-0.0] and both lines of the file read
    [-0.00]; on [[-0.0, 0.0]] both read [0.00]. *)
Lemma minmax_file_signed_zeros :
  let line_feed := String "010" "" in
  files (main (driver := driver [[[0; 1]]] zeros_table) (libs := libs) (rec_args 0) noon ∅)
    !! (".", simple_name (strftime noon)) =
  Some (TextFile ("-0.00" +:+ line_feed +:+ "-0.00" +:+ line_feed)) /\
  files (main (driver := driver [[[1; 0]]] zeros_table) (libs := libs) (rec_args 0) noon ∅)
    !! (".", simple_name (strftime noon)) =
  Some (TextFile ("0.00" +:+ line_feed +:+ "0.00" +:+ line_feed)).
Proof. vm_compute. split; reflexivity. Qed.

(** C9, the claim as stated fails.  An offset of 1.5 given together with a
    recording: the emulator is built from the file name alone, no live
    camera is constructed and the offset goes nowhere. *)
Lemma nonzero_offset_unused_by_replay :
  let args := mkArgs false None (Some 1.5%float) 10 "." false (Some "rec.npy") in
  let r := open_camera (driver := driver [] table) args ∅ in
  truthy_float 1.5 = true /\
  outcome r = Done (CameraEmulator (CameraDriver := driver [] table) "rec.npy") /\
  trace r = [NewEmulator "rec.npy"; Print "Using emulator with file: rec.npy"] /\
  count_events is_new_camera (trace r) = 0%nat.
Proof. vm_compute. repeat split. Qed.

Lemma offset_witness :
  let zero := mkArgs false None (Some 0%float) 10 "." false None in
  let some := mkArgs false None (Some 1.5%float) 10 "." false None in
  main (driver := driver [] table) (libs := libs) zero noon ∅ =
    main (driver := driver [] table) (libs := libs) (with_offset None zero) noon ∅ /\
  fixed_offset (collected_kwargs some) = Some 1.5%float /\
  count_events is_new_camera
    (trace (open_camera (driver := driver [] table) (rec_args 10) ∅)) = 0%nat.
Proof.
  intros zero some. split; [|split].
  - destruct (zero_offset_dropped_nonzero_reaches_live_camera
                (driver := driver [] table) (libs := libs) zero noon ∅) as [H _].
    apply (H 0%float); reflexivity.
  - destruct (zero_offset_dropped_nonzero_reaches_live_camera
                (driver := driver [] table) (libs := libs) some noon ∅) as (_ & H & _).
    apply (H 1.5%float); reflexivity.
  - destruct (zero_offset_dropped_nonzero_reaches_live_camera
                (driver := driver [] table) (libs := libs) (rec_args 10) noon ∅) as (_ & _ & H).
    apply H. reflexivity.
Defined.

Lemma high_range_witness :
  let replay := mkArgs false None None 0 "." true (Some "rec.npy") in
  let live := mkArgs false None None 0 "." true None in
  count_events is_range
    (trace (main (driver := driver [] table) (libs := libs) replay noon ∅)) = 0%nat /\
  (uses_emulator live = false /\ high_range live = true).
Proof.
  intros replay live. split.
  - destruct (replay_ignores_high_range
                (driver := driver [] table) (libs := libs) replay noon ∅) as [H _].
    apply H. reflexivity.
  - destruct (replay_ignores_high_range
                (driver := driver [] table) (libs := libs) live noon ∅) as [_ H].
    apply H. vm_compute. discriminate.
Defined.

End Runs.

(** * Further properties of the run *)

Lemma filter_none p (t : list Event) : count_events p t = 0%nat -> List.filter p t = [].
Proof. unfold count_events. apply length_zero_iff_nil. Qed.

Section RunShape.
Context {driver : CameraDriver} {libs : Libs}.

#[local] Arguments format_2f : simpl never.
#[local] Arguments str_int : simpl never.
#[local] Arguments strftime : simpl never.
#[local] Arguments normalize : simpl never.
#[local] Arguments applyColorMap : simpl never.
#[local] Arguments metadata_text : simpl never.
#[local] Arguments simple_text : simpl never.
#[local] Arguments image_name : simpl never.
#[local] Arguments numpy_name : simpl never.
#[local] Arguments metadata_name : simpl never.
#[local] Arguments simple_name : simpl never.

(** X1.  Whatever the options and whatever the camera delivers, a run calls
    [read()] once per frame to discard and once more for the capture: a
    count that is zero or negative discards nothing. *)
Theorem reads_are_count_plus_one (args : Args) (now : datetime) fs :
  Z.of_nat (count_events is_read (trace (main args now fs))) =
  Z.max 0 (stabilization args) + 1.
Proof.
  destruct (open_camera_total args fs) as (cam & t & E & _ & Hrd & _).
  rewrite (main_run _ _ _ _ _ E). unfold after. cbn [trace].
  rewrite !count_events_app, Hrd.
  destruct (capture_summary args now cam fs) as (_ & -> & _).
  cbn [count_events List.filter is_read length Nat.add]. lia.
Qed.

(** The events of [process] that are writes, in order. *)
Lemma process_writes args now cam raw fs mn mx :
  np_min (frame_of cam raw) = inr mn ->
  np_max (frame_of cam raw) = inr mx ->
  let T := strftime now in
  let dir := output_folder args in
  List.filter (fun ev => is_write ev || is_release ev)
    (trace (process args now cam raw fs)) =
  [WriteFile (dir, image_name T); WriteFile (dir, numpy_name T);
   WriteFile (dir, metadata_name T); WriteFile (dir, simple_name T); Release].
Proof.
  intros Emin Emax. unfold frame_of in *. cbv zeta.
  unfold process, print_statistics, print.
  rewrite !bind_emit, Emin, bind_lift_inr, Emax, bind_lift_inr.
  repeat (rewrite bind_bind || rewrite bind_emit || rewrite bind_write).
  rewrite !after_after.
  unfold after, emit. cbn [outcome files trace app fst snd].
  reflexivity.
Qed.

(** X3.  A run that captures a frame writes exactly four files, all in the
    output folder, under four different names, in the order image, array,
    metadata, min/max; the camera is released only after the last of them. *)
Theorem writes_in_order_then_release (args : Args) (now : datetime) fs cam mn mx :
  outcome (open_camera args fs) = Done cam ->
  let cam1 := drain (Z.to_nat (stabilization args)) cam in
  let temp_frame := frame_of (snd (read cam1)) (snd (fst (read cam1))) in
  fst (fst (read cam1)) = true ->
  np_min temp_frame = inr mn ->
  np_max temp_frame = inr mx ->
  let T := strftime now in
  let dir := output_folder args in
  List.filter (fun ev => is_write ev || is_release ev) (trace (main args now fs)) =
    (map (fun name => WriteFile (dir, name)) (artifact_names T) ++ [Release])%list /\
  List.NoDup (artifact_names T).
Proof.
  intros Hopen cam1 temp_frame Hok Emin Emax T dir. split.
  - destruct (open_camera_total args fs) as (cam' & t & E & Hrel & _ & Hwr & _).
    rewrite (opened_is _ _ _ _ _ E Hopen) in E. clear cam' Hopen.
    rewrite (main_run _ _ _ _ _ E), capture_run. cbv zeta. fold cam1.
    rewrite Hok. cbn [negb]. unfold after. cbn [trace].
    rewrite !List.filter_app.
    rewrite (process_writes args now _ _ fs mn mx Emin Emax).
    assert (List.filter (fun ev => is_write ev || is_release ev) t = []) as ->.
    { apply filter_none. unfold count_events in *.
      apply length_zero_iff_nil in Hrel, Hwr. clear E.
      induction t as [|ev t IH]; [reflexivity|].
      cbn [List.filter] in *.
      destruct (is_write ev), (is_release ev); try discriminate; cbn [orb]; auto. }
    assert (List.filter (fun ev => is_write ev || is_release ev)
              (discard_events (stabilization args) (range (stabilization args))) = []) as ->.
    { apply filter_none. rewrite discard_events_count by reflexivity. reflexivity. }
    reflexivity.
  - subst T. destruct (artifact_names_distinct (strftime now)) as (H1 & H2 & H3 & H4 & H5 & H6).
    unfold artifact_names.
    do 4 (constructor;
          [cbn [List.In]; intros H; repeat (destruct H as [H|H]; [congruence|]); exact H|]).
    constructor.
Qed.

(** The progress lines of the discard phase, for a loop of [n] rounds. *)
Lemma discard_prints total : forall n : nat,
  List.filter is_print (discard_events total (map Z.of_nat (seq 0 n))) =
  map (fun j => skipped_line total (5 * Z.of_nat j)) (seq 1 (n / 5)).
Proof.
  induction n as [|n IH]; [reflexivity|].
  rewrite seq_S, map_app. unfold discard_events in *.
  rewrite flat_map_app, List.filter_app, IH. cbn [Nat.add map flat_map].
  rewrite app_nil_r. unfold milestone, skipped_line.
  pose proof (Nat.div_mod_eq n 5) as D1.
  pose proof (Nat.mod_upper_bound n 5 ltac:(discriminate)) as B1.
  pose proof (Nat.div_mod_eq (S n) 5) as D2.
  pose proof (Nat.mod_upper_bound (S n) 5 ltac:(discriminate)) as B2.
  pose proof (Nat2Z.inj_mod (S n) 5) as Z2. rewrite Nat2Z.inj_succ in Z2.
  change (Z.of_nat 5) with 5 in Z2. unfold Z.succ in Z2.
  destruct (Nat.eq_dec (S n mod 5)%nat 0%nat) as [Hm|Hm].
  - replace (S n / 5)%nat with (S (n / 5)) by lia.
    rewrite seq_S, map_app. cbn [map Nat.add].
    replace ((Z.of_nat n + 1) mod 5 =? 0) with true by (symmetry; apply Z.eqb_eq; lia).
    cbn [List.filter is_print app]. do 3 f_equal.
    replace (5 * Z.of_nat (S (n / 5))) with (Z.of_nat n + 1) by lia. reflexivity.
  - replace (S n / 5)%nat with (n / 5)%nat by lia.
    replace ((Z.of_nat n + 1) mod 5 =? 0) with false by (symmetry; apply Z.eqb_neq; lia).
    cbn [List.filter is_print app]. rewrite app_nil_r. reflexivity.
Qed.

(** X2.  During stabilisation the operator sees one progress line after
    every fifth discarded frame and no other output: for a count [N] there
    are [N / 5] lines (none when [N < 5]), the j-th reading
    [Skipped 5j/N frames]. *)
Theorem progress_line_every_fifth_frame (N : Z) (cam : camera) fs :
  List.filter is_print (trace (stabilize N (range N) cam fs)) =
  map (fun j => skipped_line N (5 * Z.of_nat j)) (seq 1 (Z.to_nat (N / 5))).
Proof.
  rewrite stabilize_run. cbn [trace]. unfold range. rewrite discard_prints.
  do 2 f_equal.
  destruct (Z.le_gt_cases 0 N) as [HN|HN].
  - rewrite Z2Nat.inj_div by lia. reflexivity.
  - replace (Z.to_nat N) with O by lia.
    pose proof (Z.div_lt_upper_bound N 5 0 ltac:(lia) ltac:(lia)). 
    replace (Z.to_nat (N / 5)) with O by lia. reflexivity.
Qed.

Lemma process_no_setup args now cam raw fs :
  count_events is_setup (trace (process args now cam raw fs)) = 0%nat.
Proof.
  destruct (np_min (frame_of cam raw)) as [e|mn] eqn:Emin.
  - rewrite (process_raises _ _ _ _ _ _ Emin). reflexivity.
  - destruct (np_max_defined _ (np_min_value _ _ Emin)) as [mx Emax].
    unfold frame_of in *.
    unfold process, print_statistics, print.
    rewrite !bind_emit, Emin, bind_lift_inr, Emax, bind_lift_inr.
    repeat (rewrite bind_bind || rewrite bind_emit || rewrite bind_write).
    rewrite !after_after.
    unfold after, emit. cbn [outcome files trace app fst snd].
    reflexivity.
Qed.

Lemma capture_no_setup args now cam fs :
  count_events is_setup (trace (capture args now cam fs)) = 0%nat.
Proof.
  rewrite capture_run. cbv zeta. unfold after. cbn [trace].
  rewrite !count_events_app, discard_events_count by reflexivity.
  destruct (negb _); [reflexivity|].
  rewrite process_no_setup. reflexivity.
Qed.

(** X4.  Every run starts by creating the output folder and announcing the
    initialisation.  The video device is opened only for a live camera
    given a non-empty device path, and then just before the camera is
    constructed.  Exactly one camera object is constructed per run: the
    emulator on the file, or the live camera with the collected keyword
    arguments; nothing after that creates a folder, opens a device or
    constructs a camera. *)
Theorem one_camera_after_folder (args : Args) (now : datetime) fs :
  exists post,
    trace (main args now fs) =
    (Mkdir (output_folder args) :: Print "Initializing camera..." ::
     (if uses_emulator args then [] else device_events args) ++
     (match file args with
      | Some f => if uses_emulator args then NewEmulator f
                  else NewCamera (collected_kwargs args)
      | None => NewCamera (collected_kwargs args)
      end) :: post)%list /\
    count_events is_setup post = 0%nat /\
    count_events is_video (device_events args) =
      match device args with
      | Some p => if truthy_str p then 1%nat else 0%nat
      | None => 0%nat
      end.
Proof.
  destruct (uses_emulator args) eqn:U.
  - destruct (open_camera_emulator args fs U) as (f & Hf & E).
    rewrite (main_run _ _ _ _ _ E), Hf. unfold after. cbn [trace app].
    exists ([Print ("Using emulator with file: " +:+ f)] ++
            trace (capture args now (CameraEmulator f) fs))%list.
    split; [reflexivity|]. split.
    + rewrite count_events_app, capture_no_setup. reflexivity.
    + unfold device_events. destruct (device args) as [p|]; [destruct (truthy_str p)|]; reflexivity.
  - pose proof (open_live_run args fs) as E.
    rewrite <- (open_camera_live args fs U) in E.
    rewrite (main_run _ _ _ _ _ E). unfold after. cbn [trace app].
    exists (range_events args ++ trace (capture args now (live_camera args) fs))%list. split.
    + rewrite <- app_assoc. cbn [app].
      destruct (file args); reflexivity.
    + split.
      * rewrite count_events_app, capture_no_setup.
        unfold range_events. destruct (high_range args); reflexivity.
      * unfold device_events. destruct (device args) as [p|]; [destruct (truthy_str p)|]; reflexivity.
Qed.

(** X5.  Only the options a variant reads matter.  With the replay source
    selected, two command lines that agree on the file, the stabilisation
    count and the output folder give the same run, whatever they say about
    the raw camera, the device, the offset and the range.  With the live
    camera, a positional argument that does not end in [.npy] changes
    nothing: the run is the run without it. *)
Theorem run_depends_on_used_options_only (args args' : Args) (now : datetime) fs :
  (uses_emulator args = true ->
   file args' = file args -> stabilization args' = stabilization args ->
   output_folder args' = output_folder args ->
   main args' now fs = main args now fs) /\
  (uses_emulator args = false ->
   main (with_file None args) now fs = main args now fs).
Proof.
  split.
  - intros U Hf Hs Ho.
    assert (uses_emulator args' = true) as U' by (unfold uses_emulator in *; rewrite Hf; exact U).
    destruct (open_camera_emulator args fs U) as (f & Ef & E).
    destruct (open_camera_emulator args' fs U') as (f' & Ef' & E').
    rewrite Hf, Ef in Ef'. injection Ef' as <-.
    rewrite (main_run args' now fs _ _ E').
    rewrite (main_run args now fs _ _ E).
    unfold capture, process. rewrite Hs, Ho. reflexivity.
  - intros U.
    pose proof (open_live_run args fs) as E.
    pose proof (open_live_run (with_file None args) fs) as E'.
    rewrite <- (open_camera_live args fs U) in E.
    rewrite <- (open_camera_live (with_file None args) fs eq_refl) in E'.
    rewrite (main_run (with_file None args) now fs _ _ E').
    rewrite (main_run args now fs _ _ E).
    reflexivity.
Qed.

End RunShape.

(** ** Timestamps and names *)

Lemma append_inj_length (a a' b b' : string) :
  String.length a = String.length a' -> a +:+ b = a' +:+ b' -> a = a' /\ b = b'.
Proof.
  revert a'. induction a as [|c a IH]; intros [|c' a'] Hl E; try discriminate Hl.
  - split; [reflexivity | exact E].
  - rewrite !append_cons in E. injection E as -> E. injection Hl as Hl.
    destruct (IH a' Hl E) as [-> ->]. split; reflexivity.
Qed.

Lemma str_int_inj (a b : Z) : str_int a = str_int b -> a = b.
Proof.
  unfold str_int. intros E. apply DecimalZ.to_int_inj.
  assert (forall z, Z.to_int z <> Decimal.Pos Decimal.Nil /\
                    Z.to_int z <> Decimal.Neg Decimal.Nil) as Hn.
  { intros [|p|p]; cbn; split; try discriminate; intros [= H];
      exact (DecimalPos.Unsigned.to_uint_nonnil p H). }
  apply (f_equal NilZero.int_of_string) in E.
  rewrite !NilZero.isi in E by apply Hn. congruence.
Qed.

Lemma in_range (n N : Z) : 0 <= n < N -> In n (range N).
Proof.
  intros H. unfold range. replace n with (Z.of_nat (Z.to_nat n)) by lia.
  apply in_map, in_seq. lia.
Qed.

(** A test that holds on [0 .. N-1] by evaluation holds below [N]. *)
Lemma checked_below (f : Z -> bool) (N : Z) :
  forallb f (range N) = true -> forall n, 0 <= n < N -> f n = true.
Proof.
  intros H n Hn. rewrite forallb_forall in H. apply H, in_range, Hn.
Qed.

Lemma pad2_length (n : Z) : 0 <= n < 100 -> String.length (pad2 n) = 2%nat.
Proof.
  intros H. apply Nat.eqb_eq.
  apply (checked_below (fun n => (String.length (pad2 n) =? 2)%nat) 100); [|exact H].
  vm_compute. reflexivity.
Qed.

Lemma pad2_inj (a b : Z) : 0 <= a < 100 -> 0 <= b < 100 -> pad2 a = pad2 b -> a = b.
Proof.
  intros Ha Hb E.
  pose proof (checked_below
    (fun a => forallb (fun b => implb (String.eqb (pad2 a) (pad2 b)) (a =? b)) (range 100))
    100 ltac:(vm_compute; reflexivity) a Ha) as H.
  cbv beta in H. rewrite forallb_forall in H. specialize (H b (in_range _ _ Hb)).
  rewrite E, String.eqb_refl in H. apply Z.eqb_eq, H.
Qed.

Lemma year_length (y : Z) : 1000 <= y <= 9999 -> String.length (str_int y) = 4%nat.
Proof.
  intros H.
  pose proof (checked_below
    (fun y => (y <? 1000) || (String.length (str_int y) =? 4)%nat)
    10000 ltac:(vm_compute; reflexivity) y ltac:(lia)) as C.
  cbv beta in C. apply orb_true_iff in C as [C|C]; [lia | apply Nat.eqb_eq, C].
Qed.

Lemma strftime_length (t : datetime) :
  valid_datetime t -> String.length (strftime t) = 19%nat.
Proof.
  intros (Hy & Hm & Hd & Hh & Hi & Hs). unfold strftime.
  rewrite !length_append, year_length, !pad2_length by lia. reflexivity.
Qed.

Lemma strftime_inj (t1 t2 : datetime) :
  valid_datetime t1 -> valid_datetime t2 -> strftime t1 = strftime t2 -> t1 = t2.
Proof.
  intros (Hy & Hm & Hd & Hh & Hi & Hs) (Hy' & Hm' & Hd' & Hh' & Hi' & Hs') E.
  unfold strftime in E.
  apply append_inj_length in E as [Ey E]; [|rewrite !year_length by lia; reflexivity].
  apply append_inj_length in E as [_ E]; [|reflexivity].
  apply append_inj_length in E as [Em E]; [|rewrite !pad2_length by lia; reflexivity].
  apply append_inj_length in E as [_ E]; [|reflexivity].
  apply append_inj_length in E as [Ed E]; [|rewrite !pad2_length by lia; reflexivity].
  apply append_inj_length in E as [_ E]; [|reflexivity].
  apply append_inj_length in E as [Eh E]; [|rewrite !pad2_length by lia; reflexivity].
  apply append_inj_length in E as [_ E]; [|reflexivity].
  apply append_inj_length in E as [Ei E]; [|rewrite !pad2_length by lia; reflexivity].
  apply append_inj_length in E as [_ E]; [|reflexivity].
  apply str_int_inj in Ey. apply pad2_inj in Em, Ed, Eh, Ei, E; try lia.
  destruct t1, t2; cbn in *; congruence.
Qed.

(** X6.  The timestamp of a clock reading has 19 characters and determines
    the reading, so two runs whose readings differ in any field, even by one
    second, use eight different artifact names: neither can touch a file of
    the other. *)
Theorem different_seconds_different_names (t1 t2 : datetime) :
  valid_datetime t1 -> valid_datetime t2 -> t1 <> t2 ->
  String.length (strftime t1) = 19%nat /\
  strftime t1 <> strftime t2 /\
  forall n1 n2,
    In n1 (artifact_names (strftime t1)) -> In n2 (artifact_names (strftime t2)) ->
    n1 <> n2.
Proof.
  intros V1 V2 Hne.
  assert (strftime t1 <> strftime t2) as HT by (intros E; apply Hne, strftime_inj; assumption).
  split; [apply strftime_length, V1|]. split; [exact HT|].
  intros n1 n2 H1 H2 E. apply HT.
  assert (forall s1 s2, strftime t1 +:+ s1 = strftime t2 +:+ s2 -> strftime t1 = strftime t2) as K.
  { intros s1 s2 E'. apply append_inj_length in E' as [E' _]; [exact E'|].
    rewrite !strftime_length by assumption. reflexivity. }
  unfold artifact_names, image_name, numpy_name, metadata_name, simple_name in H1, H2.
  cbn [In] in H1, H2.
  repeat (destruct H1 as [H1|H1]; [|]); try contradiction;
  repeat (destruct H2 as [H2|H2]; [|]); try contradiction;
  subst n1 n2; apply append_inj_l in E; exact (K _ _ E).
Qed.

(** ** Numbers as written and as stored *)

Lemma digit_text (k : Z) :
  0 <= k < 10 -> exists d, str_int k = String d "" /\ is_digit d = true.
Proof.
  intros H.
  pose proof (checked_below
    (fun k => match str_int k with String d "" => is_digit d | _ => false end)
    10 ltac:(vm_compute; reflexivity) k H) as C.
  cbv beta in C. destruct (str_int k) as [|d [|? ?]]; try discriminate C.
  exists d. split; [reflexivity | exact C].
Qed.

(** X7.  Every number the run prints or writes with [.2f] is either one of
    the three special texts or ends in a point followed by exactly two
    digits. *)
Theorem format_2f_two_decimals (x : float) :
  In (format_2f x) ["nan"; "inf"; "-inf"] \/
  exists body d1 d2,
    format_2f x = body +:+ "." +:+ String d1 (String d2 "") /\
    is_digit d1 = true /\ is_digit d2 = true.
Proof.
  unfold format_2f. destruct (Prim2SF x) as [s|s| |s m e].
  - right. destruct s; [exists "-0" | exists "0"]; exists "0"%char, "0"%char;
      repeat split.
  - left. destruct s; cbn [In]; auto.
  - left. cbn [In]. auto.
  - right. cbv zeta. unfold two_digits.
    set (h := hundredths m e).
    destruct (digit_text (h mod 100 / 10)) as (d1 & E1 & D1).
    { pose proof (Z.mod_pos_bound h 100 ltac:(lia)).
      split; [apply Z.div_pos; lia | apply Z.div_lt_upper_bound; lia]. }
    destruct (digit_text (h mod 100 mod 10)) as (d2 & E2 & D2).
    { apply Z.mod_pos_bound. lia. }
    exists ((if s then "-" else "") +:+ str_int (h / 100)), d1, d2.
    rewrite E1, E2, append_assoc. repeat split; assumption.
Qed.

(** X8.  The minimum and the maximum that a run reports are samples of the
    frame: each is the value of some element, never a value computed in
    between. *)
Theorem min_max_are_samples (a : Matrix) (mn mx : float) :
  np_min a = inr mn -> np_max a = inr mx ->
  In mn (concat a) /\ In mx (concat a).
Proof.
  unfold np_min, np_max. destruct (concat a) as [|x xs]; [discriminate|].
  intros [= <-] [= <-]. split; apply fold_left_choice; intros p q.
  - unfold minimum. destruct (is_nan p), (is_nan q), (float_lt p q); auto.
  - unfold maximum. destruct (is_nan p), (is_nan q), (float_lt q p); auto.
Qed.

(** ** Lines of the metadata file *)

Lemma pad2_no_newline (n : Z) : has_newline (pad2 n) = false.
Proof.
  unfold pad2. destruct (n <? 10); [rewrite has_newline_append|];
    rewrite str_int_no_newline; reflexivity.
Qed.

Lemma strftime_no_newline (t : datetime) : has_newline (strftime t) = false.
Proof.
  unfold strftime.
  rewrite !has_newline_append, str_int_no_newline, !pad2_no_newline. reflexivity.
Qed.

Lemma info_lines_count (inf : Info) :
  Forall (fun kv => has_newline (fst kv) = false /\ has_newline (snd kv) = false) inf ->
  count_newlines (info_lines inf) = length inf.
Proof.
  intros H. induction H as [|kv inf [Hk Hv] _ IH]; [reflexivity|].
  cbn [info_lines fold_right length]. fold (info_lines inf).
  rewrite !count_newlines_append, IH.
  rewrite (count_newlines_none _ Hk), (count_newlines_none _ Hv). reflexivity.
Qed.

(** X10.  The metadata file of a run has a fixed head of nine lines (title,
    timestamp, resolution, a blank line, the heading and the four
    statistics).  When the camera gives no calibration item the file ends
    there; otherwise a blank line, a heading and one line per item follow,
    as long as no key or value contains a line feed of its own. *)
Theorem metadata_file_lines (now : datetime) (w h : Z)
    (temp_min temp_max temp_mean temp_std : float) (inf : Info) :
  Forall (fun kv => has_newline (fst kv) = false /\ has_newline (snd kv) = false) inf ->
  count_newlines
    (metadata_text (strftime now) w h temp_min temp_max temp_mean temp_std inf) =
  match inf with
  | [] => 9%nat
  | _ :: _ => (9 + 2 + length inf)%nat
  end.
Proof.
  intros H. unfold metadata_text.
  rewrite !count_newlines_append.
  rewrite !(count_newlines_none (format_2f _)) by apply format_2f_no_newline.
  rewrite !(count_newlines_none (str_int _)) by apply str_int_no_newline.
  rewrite (count_newlines_none (strftime now)) by apply strftime_no_newline.
  destruct inf as [|kv inf]; [reflexivity|].
  rewrite count_newlines_append, (info_lines_count _ H).
  reflexivity.
Qed.

(** ** Concrete runs for the further properties *)

Module MoreRuns.
Import Replay.

Lemma writes_in_order_witness :
  List.filter (fun ev => is_write ev || is_release ev)
    (trace (main (driver := driver [uniform_frame] table) (libs := libs)
              (rec_args 0) noon ∅)) =
  [WriteFile (".", "thermal_2024-03-09_12-00-05.png");
   WriteFile (".", "thermal_2024-03-09_12-00-05.npy");
   WriteFile (".", "thermal_2024-03-09_12-00-05.txt");
   WriteFile (".", "thermal_2024-03-09_12-00-05_minmax.txt");
   Release].
Proof.
  destruct (writes_in_order_then_release
              (driver := driver [uniform_frame] table) (libs := libs)
              (rec_args 0) noon ∅
              (CameraEmulator (CameraDriver := driver [uniform_frame] table) "rec.npy")
              23.5%float 23.5%float eq_refl eq_refl eq_refl eq_refl) as [H _].
  exact H.
Defined.

(** The replay run does not see the raw-camera flag, the device, the offset
    or the range; the live run does not see a file called [notes.txt]. *)
Lemma used_options_witness :
  main (driver := driver [uniform_frame] table) (libs := libs)
       (mkArgs true (Some "/dev/video2") (Some 1.5%float) 0 "." true (Some "rec.npy")) noon ∅ =
  main (driver := driver [uniform_frame] table) (libs := libs) (rec_args 0) noon ∅ /\
  main (driver := driver [uniform_frame] table) (libs := libs)
       (with_file None (default_args (Some "notes.txt"))) noon ∅ =
  main (driver := driver [uniform_frame] table) (libs := libs)
       (default_args (Some "notes.txt")) noon ∅.
Proof.
  split.
  - destruct (run_depends_on_used_options_only
                (driver := driver [uniform_frame] table) (libs := libs)
                (rec_args 0)
                (mkArgs true (Some "/dev/video2") (Some 1.5%float) 0 "." true (Some "rec.npy"))
                noon ∅) as [H _].
    apply H; reflexivity.
  - destruct (run_depends_on_used_options_only
                (driver := driver [uniform_frame] table) (libs := libs)
                (default_args (Some "notes.txt")) (default_args None) noon ∅) as [_ H].
    apply H. reflexivity.
Defined.

Lemma noon_valid : valid_datetime noon.
Proof. unfold valid_datetime, noon. cbn. lia. Defined.

Lemma next_second_valid : valid_datetime (mkDatetime 2024 3 9 12 0 6).
Proof. unfold valid_datetime. cbn. lia. Defined.

Lemma different_seconds_witness :
  image_name (strftime noon) <> image_name (strftime (mkDatetime 2024 3 9 12 0 6)) /\
  metadata_name (strftime noon) <> simple_name (strftime (mkDatetime 2024 3 9 12 0 6)).
Proof.
  destruct (different_seconds_different_names noon (mkDatetime 2024 3 9 12 0 6)
              noon_valid next_second_valid ltac:(discriminate)) as (_ & _ & H).
  split; apply H; cbn [artifact_names In]; auto.
Defined.

Lemma min_max_witness :
  In 1%float [3; 1; 2; 5]%float /\ In 5%float [3; 1; 2; 5]%float.
Proof.
  exact (min_max_are_samples [[3; 1]; [2; 5]]%float 1 5 eq_refl eq_refl).
Defined.

Lemma metadata_lines_witness :
  count_newlines
    (metadata_text (strftime noon) 4 4 23.5 23.5 23.5 0
       [("model", "replay"); ("firmware", "1.2")]) = 13%nat.
Proof.
  apply (metadata_file_lines noon 4 4 23.5 23.5 23.5 0
           [("model", "replay"); ("firmware", "1.2")]).
  repeat constructor.
Defined.

End MoreRuns.
